(** * HBMP Survey Manager: the question-bank compiler of Code.gs

    A shallow embedding of the Apps Script functions that read the
    [RespondentDetails] and [Questions] sheets, validate and sort their rows,
    and build the form ([readRespondentDetails], [readQuestionsWithValidation],
    [buildForm], [handleGenerateForm]), followed by the properties the
    specification states about them. *)

From Stdlib Require Import List String Ascii Bool Arith ZArith QArith Lia Lqa.
From Stdlib Require Import Permutation Sorted ListSet DecimalString.
From Stdlib Require OrderedTypeEx DecimalPos.
Import ListNotations.

Local Close Scope Q_scope.
Local Open Scope string_scope.
Local Open Scope list_scope.

(** ** JavaScript values held by sheet cells *)

(** [getValues()] yields a String, a Number or a Boolean per cell (an empty
    cell is the empty string); [row[colIndices[name]]] is [undefined] when the
    header row has no column [name].  Numbers are taken integer-valued (and
    below 10^21 in magnitude), which keeps [toString] exact; Date cells are
    left out.  Strings are ASCII text. *)
Inductive value : Type :=
  | VUndefined
  | VString (s : string)
  | VNumber (n : Z)
  | VBoolean (b : bool).

(** A statement that either completes normally or throws. *)
Inductive completion (A : Type) : Type :=
  | Normal (a : A)
  | Throw (error : string).
Arguments Normal {A} a.
Arguments Throw {A} error.

Definition bind {A B : Type} (c : completion A) (k : A -> completion B)
  : completion B :=
  match c with
  | Normal a => k a
  | Throw e => Throw e
  end.

Notation "x <- c ;; k" := (bind c (fun x => k))
  (at level 61, c at next level, right associativity).

Module JS.

Definition value_eq_dec (a b : value) : {a = b} + {a <> b}.
Proof.
  decide equality;
    [ apply string_dec | apply Z.eq_dec | apply bool_dec ].
Defined.

(** [a === b] on the values above. *)
Definition strictEq (a b : value) : bool :=
  if value_eq_dec a b then true else false.

(** ToBoolean: [undefined], the empty string, [0] and [false] are falsy. *)
Definition truthy (v : value) : bool :=
  match v with
  | VUndefined => false
  | VString s => negb (String.eqb s EmptyString)
  | VNumber n => negb (Z.eqb n 0)
  | VBoolean b => b
  end.

(** [a || b]. *)
Definition or (a b : value) : value := if truthy a then a else b.

(** [v.toString()], also the ToString conversion of string concatenation. *)
Definition toString (v : value) : string :=
  match v with
  | VUndefined => "undefined"
  | VString s => s
  | VNumber n => NilZero.string_of_int (Z.to_int n)
  | VBoolean true => "true"
  | VBoolean false => "false"
  end.

(** White space and line terminators of the ASCII range. *)
Definition isWhiteSpace (c : ascii) : bool :=
  let n := nat_of_ascii c in
  (((9 <=? n) && (n <=? 13)) || (n =? 32))%nat.

Fixpoint trimStart (s : string) : string :=
  match s with
  | EmptyString => EmptyString
  | String c s' => if isWhiteSpace c then trimStart s' else s
  end.

Fixpoint trimEnd (s : string) : string :=
  match s with
  | EmptyString => EmptyString
  | String c s' =>
      match trimEnd s' with
      | EmptyString => if isWhiteSpace c then EmptyString
                       else String c EmptyString
      | t => String c t
      end
  end.

(** [s.trim()]. *)
Definition trim (s : string) : string := trimEnd (trimStart s).

Definition upperChar (c : ascii) : ascii :=
  let n := nat_of_ascii c in
  if ((97 <=? n) && (n <=? 122))%nat then ascii_of_nat (n - 32) else c.

(** [s.toUpperCase()] on ASCII text. *)
Fixpoint toUpperCase (s : string) : string :=
  match s with
  | EmptyString => EmptyString
  | String c s' => String (upperChar c) (toUpperCase s')
  end.

End JS.

(** ** Rows of the two sheets *)

(** A data row of the [Questions] sheet, one field per column the code looks
    up through [colIndices].  [qOrder] is the number the code computes as
    [parseFloat(row[colIndices['Order']]) || 0], which is never [NaN]. *)
Record questionRow : Type := {
  qQuestionId : value;
  qSection : value;
  qOrder : Q;
  qType : value;
  qQuestionText : value;
  qRequired : value;
  qOption1 : value;
  qOption2 : value;
  qOption3 : value;
  qOption4 : value;
  qOption5 : value;
  qGoToSectionOnOption : value
}.

(** A data row of the [RespondentDetails] sheet; [dOrder] as [qOrder]. *)
Record respondentRow : Type := {
  dFieldName : value;
  dType : value;
  dRequired : value;
  dOrder : Q;
  dOption1 : value;
  dOption2 : value;
  dOption3 : value;
  dOption4 : value;
  dOption5 : value
}.

(** The question object built per row. *)
Module Question.
Record t : Type := mk {
  questionId : value;
  section : value;
  order : Q;
  type : string;
  questionText : string;
  required : bool;
  options : list string;
  goToSectionOnOption : value
}.
End Question.

(** The respondent field object built per row. *)
Module Field.
Record t : Type := mk {
  fieldName : string;
  type : string;
  required : bool;
  order : Q;
  options : list string
}.
End Field.

(** [stats] of [readQuestionsWithValidation]. *)
Record validationStats : Type := {
  sectionsCount : nat;
  questionsCount : nat;
  skippedCount : nat;
  errors : list string
}.

(** ** Row helpers shared by the readers *)

(** [!cell || cell.toString().trim() === ''], the blank-row test. *)
Definition isBlank (cell : value) : bool :=
  negb (JS.truthy cell)
  || String.eqb (JS.trim (JS.toString cell)) EmptyString.

(** The loop over [Option1] .. [Option5]: a cell that is truthy and not
    white space only is pushed, trimmed. *)
Fixpoint collectOptions (cells : list value) : list string :=
  match cells with
  | [] => []
  | c :: rest =>
      if JS.truthy c
         && negb (String.eqb (JS.trim (JS.toString c)) EmptyString)
      then JS.trim (JS.toString c) :: collectOptions rest
      else collectOptions rest
  end.

(** [(cell || '').toString().toUpperCase() === 'TRUE']. *)
Definition parseRequired (cell : value) : bool :=
  String.eqb
    (JS.toUpperCase (JS.toString (JS.or cell (VString EmptyString))))
    "TRUE".

Definition questionOptionCells (r : questionRow) : list value :=
  [qOption1 r; qOption2 r; qOption3 r; qOption4 r; qOption5 r].

Definition respondentOptionCells (r : respondentRow) : list value :=
  [dOption1 r; dOption2 r; dOption3 r; dOption4 r; dOption5 r].

Definition dquote : string := String (ascii_of_nat 34) EmptyString.

(** ** [Array.prototype.sort] with a comparison function *)

(** The sort is stable (ECMAScript 2019), and the order in which it calls
    [comparefn] is left to the engine.  It is modelled as a stable insertion
    sort: an element stays in front of those found after it in the array unless
    one of them compares strictly below it.  With a consistent [comparefn]
    every stable sort returns this list ([stable_sorted_unique] below).  A
    call of [comparefn] that throws aborts the sort. *)
Section ArraySort.

Context {A : Type}.
Variable comparefn : A -> A -> completion Q.

(** The sign test the sort applies to a result of [comparefn]. *)
Definition negative (v : Q) : bool := (Qnum v <? 0)%Z.

Fixpoint insert (x : A) (sorted : list A) : completion (list A) :=
  match sorted with
  | [] => Normal [x]
  | y :: rest =>
      v <- comparefn y x ;;
      if negative v
      then rest' <- insert x rest ;; Normal (y :: rest')
      else Normal (x :: y :: rest)
  end.

Fixpoint sort (l : list A) : completion (list A) :=
  match l with
  | [] => Normal []
  | x :: rest => sorted <- sort rest ;; insert x sorted
  end.

End ArraySort.

(** ** The form under construction *)

(** The item a [FormApp] call adds: [addTextItem], [addParagraphTextItem],
    [addListItem], [addMultipleChoiceItem], [addCheckboxItem]. *)
Inductive itemKind : Type :=
  | TextItem
  | ParagraphTextItem
  | ListItem
  | MultipleChoiceItem
  | CheckboxItem.

(** The items of the form in the order they are added.  [PageBreak] records
    [addPageBreakItem().setTitle(title).setHelpText(helpText)]; [Item] records
    an item with its [setTitle], [setRequired] and [setChoices]. *)
Inductive instruction : Type :=
  | PageBreak (title : value) (helpText : string)
  | Item (kind : itemKind) (title : string) (required : bool)
         (choices : list string).

(** What [handleGenerateForm] hands back: the three [createResponse] calls
    and the [createErrorResponse] of its [catch].  [FormCreated] carries the
    form that [buildForm] has created as well; its [stats] are the four
    counters of the reader, to which the script adds the id and the version
    that the host gave the new form. *)
Inductive response : Type :=
  | NoQuestionsFound (stats : validationStats)
  | DryRunCompleted (stats : validationStats)
  | FormCreated (form : list instruction) (stats : validationStats)
  | ErrorResponse (message : string).

(** The [ok] field of the response. *)
Definition ok (r : response) : bool :=
  match r with
  | NoQuestionsFound _ => false
  | DryRunCompleted _ => true
  | FormCreated _ _ => true
  | ErrorResponse _ => false
  end.

(** The [stats] field of the response; [createErrorResponse] sets none. *)
Definition responseStats (r : response) : option validationStats :=
  match r with
  | NoQuestionsFound s => Some s
  | DryRunCompleted s => Some s
  | FormCreated _ s => Some s
  | ErrorResponse _ => None
  end.

(** The two sheets the request reads; [None] is a sheet that does not
    exist, and the list holds the rows below the header row. *)
Record spreadsheet : Type := {
  respondentDetailsSheet : option (list respondentRow);
  questionsSheet : option (list questionRow)
}.

(** ** readRespondentDetails *)

Definition makeField (row : respondentRow) : Field.t :=
  Field.mk
    (JS.trim (JS.toString (dFieldName row)))
    (JS.toUpperCase (JS.toString (JS.or (dType row) (VString "TEXT"))))
    (parseRequired (dRequired row))
    (dOrder row)
    [].

(** One turn of the row loop: the field pushed, if any. *)
Definition readRespondentRow (row : respondentRow) : list Field.t :=
  if isBlank (dFieldName row) then []
  else
    let field := makeField row in
    if String.eqb (Field.type field) "DROPDOWN" then
      let options := collectOptions (respondentOptionCells row) in
      if (List.length options =? 0)%nat then []
      else [Field.mk (Field.fieldName field) (Field.type field)
                     (Field.required field) (Field.order field) options]
    else [field].

Definition compareFields (a b : Field.t) : completion Q :=
  Normal (Field.order a - Field.order b)%Q.

Definition readRespondentDetails (sheet : option (list respondentRow))
  : completion (list Field.t) :=
  match sheet with
  | None => Normal []
  | Some rows => sort compareFields (flat_map readRespondentRow rows)
  end.

(** ** readQuestionsWithValidation *)

(** The variables the row loop updates: the [questions] array, the
    [sections] set (a JavaScript [Set] keeps its members in insertion order),
    [stats.skippedCount] and [stats.errors]. *)
Record scanState : Type := {
  questions : list Question.t;
  sections : set value;
  skipped : nat;
  errs : list string
}.

Definition initialScan : scanState :=
  {| questions := []; sections := empty_set value; skipped := 0; errs := [] |}.

Definition validTypes : list string :=
  ["MCQ"; "CHECKBOX"; "DROPDOWN"; "TEXT"; "PARAGRAPH"].

(** [type === 'MCQ' || type === 'CHECKBOX' || type === 'DROPDOWN']. *)
Definition isChoiceType (type : string) : bool :=
  String.eqb type "MCQ" || String.eqb type "CHECKBOX"
  || String.eqb type "DROPDOWN".

(** [validTypes.indexOf(type) === -1]. *)
Definition isInvalidType (type : string) : bool :=
  negb (existsb (String.eqb type) validTypes).

(** [row[colIndices['Section']] || '']. *)
Definition rowSection (row : questionRow) : value :=
  JS.or (qSection row) (VString EmptyString).

(** [(row[colIndices['Type']] || '').toString().toUpperCase()]. *)
Definition rowType (row : questionRow) : string :=
  JS.toUpperCase (JS.toString (JS.or (qType row) (VString EmptyString))).

(** [section && section !== '']. *)
Definition nonBlankSection (section : value) : bool :=
  JS.truthy section && negb (JS.strictEq section (VString EmptyString)).

Definition noOptionsError (questionText type : string) : string :=
  "Question " ++ dquote ++ questionText ++ dquote ++ " has type " ++ type
  ++ " but no options".

Definition invalidTypeError (questionText type : string) : string :=
  "Question " ++ dquote ++ questionText ++ dquote ++ " has invalid type: "
  ++ type.

(** The question object of a row, with the options the row loop collects
    for the three choice types. *)
Definition makeQuestion (row : questionRow) : Question.t :=
  Question.mk
    (JS.or (qQuestionId row) (VString EmptyString))
    (rowSection row)
    (qOrder row)
    (rowType row)
    (JS.toString (qQuestionText row))
    (parseRequired (qRequired row))
    (if isChoiceType (rowType row)
     then collectOptions (questionOptionCells row) else [])
    (JS.or (qGoToSectionOnOption row) (VString EmptyString)).

(** The body of the row loop. *)
Definition processQuestionRow (st : scanState) (row : questionRow)
  : scanState :=
  if isBlank (qQuestionText row) then
    {| questions := questions st; sections := sections st;
       skipped := S (skipped st); errs := errs st |}
  else
    let question := makeQuestion row in
    let tracked :=
      if nonBlankSection (Question.section question)
      then set_add JS.value_eq_dec (Question.section question) (sections st)
      else sections st in
    if isChoiceType (Question.type question)
       && (List.length (Question.options question) =? 0)%nat
    then
      {| questions := questions st; sections := tracked;
         skipped := S (skipped st);
         errs := errs st ++ [noOptionsError (Question.questionText question)
                                            (Question.type question)] |}
    else if isInvalidType (Question.type question) then
      {| questions := questions st; sections := tracked;
         skipped := S (skipped st);
         errs := errs st
                 ++ [invalidTypeError (Question.questionText question)
                                      (Question.type question)] |}
    else
      {| questions := questions st ++ [question]; sections := tracked;
         skipped := skipped st; errs := errs st |}.

Definition scanQuestionRows (rows : list questionRow) (st : scanState)
  : scanState :=
  fold_left processQuestionRow rows st.

Section Compiler.

(** [String.prototype.localeCompare] of the host, as a signed integer. *)
Variable localeCompare : string -> string -> Z.

(** The comparison function handed to [questions.sort].  Only a string has
    a [localeCompare] method: calling it on a number or a boolean throws. *)
Definition compareQuestions (a b : Question.t) : completion Q :=
  if negb (JS.strictEq (Question.section a) (Question.section b)) then
    if JS.strictEq (Question.section a) (VString EmptyString)
    then Normal 1%Q
    else if JS.strictEq (Question.section b) (VString EmptyString)
    then Normal (-1)%Q
    else
      match Question.section a with
      | VString s =>
          Normal (inject_Z
                    (localeCompare s (JS.toString (Question.section b))))
      | _ => Throw "TypeError: a.section.localeCompare is not a function"
      end
  else Normal (Question.order a - Question.order b)%Q.

Definition sortQuestions (qs : list Question.t)
  : completion (list Question.t) :=
  sort compareQuestions qs.

Definition readQuestionsWithValidation (sheet : option (list questionRow))
  : completion (list Question.t * validationStats) :=
  match sheet with
  | None =>
      Normal ([], {| sectionsCount := 0; questionsCount := 0;
                     skippedCount := 0;
                     errors := ["Questions sheet not found"] |})
  | Some [] =>
      Normal ([], {| sectionsCount := 0; questionsCount := 0;
                     skippedCount := 0;
                     errors := ["No question rows found in Questions sheet"]
                  |})
  | Some rows =>
      let st := scanQuestionRows rows initialScan in
      sorted <- sortQuestions (questions st) ;;
      Normal (sorted,
              {| sectionsCount := List.length (sections st);
                 questionsCount := List.length sorted;
                 skippedCount := skipped st;
                 errors := errs st |})
  end.

End Compiler.

(** ** buildForm *)

(** The [switch] over [field.type]; the [default] branch logs a warning and
    adds nothing. *)
Definition respondentItem (field : Field.t) : list instruction :=
  if String.eqb (Field.type field) "TEXT" then
    [Item TextItem (Field.fieldName field) (Field.required field) []]
  else if String.eqb (Field.type field) "PARAGRAPH" then
    [Item ParagraphTextItem (Field.fieldName field) (Field.required field) []]
  else if String.eqb (Field.type field) "DROPDOWN" then
    [Item ListItem (Field.fieldName field) (Field.required field)
          (Field.options field)]
  else [].

(** The [switch] over [q.type]. *)
Definition questionItem (q : Question.t) : list instruction :=
  let title := Question.questionText q in
  let required := Question.required q in
  if String.eqb (Question.type q) "MCQ" then
    [Item MultipleChoiceItem title required (Question.options q)]
  else if String.eqb (Question.type q) "CHECKBOX" then
    [Item CheckboxItem title required (Question.options q)]
  else if String.eqb (Question.type q) "DROPDOWN" then
    [Item ListItem title required (Question.options q)]
  else if String.eqb (Question.type q) "TEXT" then
    [Item TextItem title required []]
  else if String.eqb (Question.type q) "PARAGRAPH" then
    [Item ParagraphTextItem title required []]
  else [].

(** [q.section && q.section !== '' && q.section !== currentSection], with
    [None] for the initial [null]. *)
Definition sectionChanged (currentSection : option value) (q : Question.t)
  : bool :=
  nonBlankSection (Question.section q)
  && match currentSection with
     | None => true
     | Some s => negb (JS.strictEq (Question.section q) s)
     end.

Definition sectionBreak (section : value) : instruction :=
  PageBreak section ("Section: " ++ JS.toString section).

(** The loop over [questions], started with the [currentSection] given. *)
Fixpoint addQuestions (currentSection : option value)
  (qs : list Question.t) : list instruction :=
  match qs with
  | [] => []
  | q :: rest =>
      if sectionChanged currentSection q then
        sectionBreak (Question.section q)
        :: questionItem q ++ addQuestions (Some (Question.section q)) rest
      else questionItem q ++ addQuestions currentSection rest
  end.

Definition respondentInformation : instruction :=
  PageBreak (VString "Respondent Information")
    "Please provide your details before proceeding to the survey questions.".

Definition surveyQuestions : instruction :=
  PageBreak (VString "Survey Questions")
    "Please answer the following questions.".

Definition buildForm (respondentDetails : list Field.t)
  (qs : list Question.t) : list instruction :=
  (if (0 <? List.length respondentDetails)%nat then
     respondentInformation
     :: flat_map respondentItem respondentDetails ++ [surveyQuestions]
   else [])
  ++ addQuestions None qs.

(** ** handleGenerateForm *)

Definition defaultRespondentFields : list respondentRow :=
  let blank := VString EmptyString in
  [ {| dFieldName := VString "Name"; dType := VString "TEXT";
       dRequired := VString "TRUE"; dOrder := 1%Q;
       dOption1 := blank; dOption2 := blank; dOption3 := blank;
       dOption4 := blank; dOption5 := blank |};
    {| dFieldName := VString "Email"; dType := VString "TEXT";
       dRequired := VString "TRUE"; dOrder := 2%Q;
       dOption1 := blank; dOption2 := blank; dOption3 := blank;
       dOption4 := blank; dOption5 := blank |};
    {| dFieldName := VString "Phone Number"; dType := VString "TEXT";
       dRequired := VString "TRUE"; dOrder := 3%Q;
       dOption1 := blank; dOption2 := blank; dOption3 := blank;
       dOption4 := blank; dOption5 := blank |};
    {| dFieldName := VString "Branch"; dType := VString "DROPDOWN";
       dRequired := VString "TRUE"; dOrder := 4%Q;
       dOption1 := VString "CSE"; dOption2 := VString "ECE";
       dOption3 := VString "ME"; dOption4 := VString "CE";
       dOption5 := VString "EE" |} ].

(** A missing [RespondentDetails] sheet is created with the default fields,
    a missing [Questions] sheet with its header row only. *)
Definition ensureSheetsExist (ss : spreadsheet) : spreadsheet :=
  {| respondentDetailsSheet :=
       match respondentDetailsSheet ss with
       | None => Some defaultRespondentFields
       | Some rows => Some rows
       end;
     questionsSheet :=
       match questionsSheet ss with
       | None => Some []
       | Some rows => Some rows
       end |}.

Section Handler.

Variable localeCompare : string -> string -> Z.

(** The body of the [try] block. *)
Definition generateForm (dryRun : bool) (ss : spreadsheet)
  : completion response :=
  let ss' := ensureSheetsExist ss in
  respondentDetails <- readRespondentDetails (respondentDetailsSheet ss') ;;
  questionsResult <-
    readQuestionsWithValidation localeCompare (questionsSheet ss') ;;
  let qs := fst questionsResult in
  let stats := snd questionsResult in
  if (List.length qs =? 0)%nat && (skippedCount stats =? 0)%nat then
    Normal (NoQuestionsFound stats)
  else if dryRun then Normal (DryRunCompleted stats)
  else Normal (FormCreated (buildForm respondentDetails qs) stats).

Definition handleGenerateForm (dryRun : bool) (ss : spreadsheet)
  : response :=
  match generateForm dryRun ss with
  | Normal r => r
  | Throw e => ErrorResponse ("Failed to generate form: " ++ e)
  end.

(** The dry run of the request, and the run that builds the form. *)
Definition validate (ss : spreadsheet) : response :=
  handleGenerateForm true ss.

Definition compile (ss : spreadsheet) : response :=
  handleGenerateForm false ss.

End Handler.

(** * Vocabulary of the specification *)

(** A section that is a string, as the data model has it ([''] included). *)
Definition textSection (q : Question.t) : Prop :=
  match Question.section q with
  | VString _ => True
  | _ => False
  end.

(** The order the sorter is to establish, [a] no later than [b]: within one
    section by ascending [order]; otherwise [a] has a section and either [b]
    has none or the section of [a] collates before that of [b]. *)
Definition questionOrder (localeCompare : string -> string -> Z)
  (a b : Question.t) : Prop :=
  if JS.value_eq_dec (Question.section a) (Question.section b)
  then (Question.order a <= Question.order b)%Q
  else Question.section a <> VString EmptyString
       /\ (Question.section b = VString EmptyString
           \/ (localeCompare (JS.toString (Question.section a))
                             (JS.toString (Question.section b)) < 0)%Z).

(** Two questions tie when they have the same section and equal orders. *)
Definition sameKey (q : Question.t) (x : Question.t) : bool :=
  JS.strictEq (Question.section x) (Question.section q)
  && Qeq_bool (Question.order x) (Question.order q).

(** A row whose [Section] cell holds text, or nothing. *)
Definition textSectionRow (row : questionRow) : Prop :=
  textSection (makeQuestion row).

(** The titles of the page breaks of a form, in order. *)
Definition pageBreakTitles (form : list instruction) : list value :=
  flat_map (fun i => match i with
                     | PageBreak title _ => [title]
                     | Item _ _ _ _ => []
                     end) form.

(** The sections that open a run: a list of section names with every name
    equal to the last one kept dropped. *)
Fixpoint sectionRuns (current : option value) (names : list value)
  : list value :=
  match names with
  | [] => []
  | s :: rest =>
      if match current with
         | Some c => JS.strictEq s c
         | None => false
         end
      then sectionRuns current rest
      else s :: sectionRuns (Some s) rest
  end.

(** The distinct non-blank sections of the accepted questions. *)
Definition sectionsOfQuestions (qs : list Question.t) : list value :=
  nodup JS.value_eq_dec
    (filter nonBlankSection (map Question.section qs)).

(** The sections the loop hands to [sections.add], in row order. *)
Definition trackedSections (rows : list questionRow) : list value :=
  filter nonBlankSection
    (map rowSection
       (filter (fun row => negb (isBlank (qQuestionText row))) rows)).

(** The distinct non-blank sections of the rows that have a question text. *)
Definition sectionsOfRows (rows : list questionRow) : list value :=
  nodup JS.value_eq_dec (trackedSections rows).

(** The three types [buildForm] knows for a respondent field. *)
Definition knownFieldType (field : Field.t) : bool :=
  String.eqb (Field.type field) "TEXT"
  || String.eqb (Field.type field) "PARAGRAPH"
  || String.eqb (Field.type field) "DROPDOWN".

(** The item of a respondent field: its kind by type, its name as title,
    its required flag, and choices for a DROPDOWN only. *)
Definition fieldItem (field : Field.t) : instruction :=
  Item (if String.eqb (Field.type field) "TEXT" then TextItem
        else if String.eqb (Field.type field) "PARAGRAPH"
             then ParagraphTextItem
             else ListItem)
       (Field.fieldName field)
       (Field.required field)
       (if String.eqb (Field.type field) "DROPDOWN"
        then Field.options field else []).

(** Ascending [order], the order of the respondent fields. *)
Definition fieldOrder (a b : Field.t) : Prop :=
  (Field.order a <= Field.order b)%Q.

(** [(row[colIndices['Type']] || 'TEXT').toString().toUpperCase()]. *)
Definition respondentRowType (row : respondentRow) : string :=
  Field.type (makeField row).

(** A collation to run the code with: strings compared by character code. *)
Definition codeUnitCompare (a b : string) : Z :=
  match String.compare a b with
  | Eq => 0
  | Lt => -1
  | Gt => 1
  end.

(** ** Sample sheets *)

Definition blank : value := VString EmptyString.

Definition questionRowOf (section : value) (order : Q)
  (type text required : string) (option1 : value) : questionRow :=
  {| qQuestionId := blank; qSection := section; qOrder := order;
     qType := VString type; qQuestionText := VString text;
     qRequired := VString required;
     qOption1 := option1; qOption2 := blank; qOption3 := blank;
     qOption4 := blank; qOption5 := blank;
     qGoToSectionOnOption := blank |}.

Definition respondentRowOf (name type : string) (order : Q)
  : respondentRow :=
  {| dFieldName := VString name; dType := VString type;
     dRequired := VString "TRUE"; dOrder := order;
     dOption1 := blank; dOption2 := blank; dOption3 := blank;
     dOption4 := blank; dOption5 := blank |}.

Definition questionOf (section : string) (order : Q) (text : string)
  : Question.t :=
  Question.mk blank (VString section) order "TEXT" text false [] blank.

Definition ageRow : questionRow :=
  questionRowOf blank 1 "TEXT" "Age?" "TRUE" blank.

Definition languagesRow : questionRow :=
  questionRowOf (VString "General") 2 "CHECKBOX" "Languages?" "TRUE" blank.

Definition howManyRow : questionRow :=
  questionRowOf (VString "General") 3 "NUMBER" "How many?" "FALSE" blank.

(** Two questions in sections numbered 1 and 2: number cells. *)
Definition numberedRows : list questionRow :=
  [ questionRowOf (VNumber 1) 1 "TEXT" "Name?" "TRUE" blank;
    questionRowOf (VNumber 2) 2 "TEXT" "City?" "TRUE" blank ].

Definition sheetsOf (respondents : list respondentRow)
  (rows : list questionRow) : spreadsheet :=
  {| respondentDetailsSheet := Some respondents;
     questionsSheet := Some rows |}.

Definition sampleQuestions : list Question.t :=
  [questionOf EmptyString 1 "First"; questionOf "B" 5 "Second";
   questionOf "A" 2 "Third"].

(** * The rest of Code.gs *)

(** ** parseInt *)

(** The value of a character as a digit of the radix, if it is one. *)
Definition digitValue (radix : Z) (c : ascii) : option Z :=
  let n := Z.of_nat (nat_of_ascii c) in
  let digit :=
    if ((48 <=? n) && (n <=? 57))%Z then Some (n - 48)%Z
    else if ((97 <=? n) && (n <=? 122))%Z then Some (n - 87)%Z
    else if ((65 <=? n) && (n <=? 90))%Z then Some (n - 55)%Z
    else None in
  match digit with
  | Some d => if (d <? radix)%Z then Some d else None
  | None => None
  end.

(** The number written by the longest prefix of digits; [acc] is the value
    of the digits read so far, [None] when none has been read. *)
Fixpoint parseDigits (radix : Z) (s : string) (acc : option Z) : option Z :=
  match s with
  | EmptyString => acc
  | String c rest =>
      match digitValue radix c with
      | Some d =>
          parseDigits radix rest
            (Some (match acc with
                   | Some a => a * radix + d
                   | None => d
                   end)%Z)
      | None => acc
      end
  end.

Definition stripSign (s : string) : Z * string :=
  match s with
  | String c rest =>
      if Ascii.eqb c "-" then ((-1)%Z, rest)
      else if Ascii.eqb c "+" then (1%Z, rest)
      else (1%Z, s)
  | EmptyString => (1%Z, s)
  end.

Definition stripHexPrefix (s : string) : Z * string :=
  match s with
  | String c0 (String c1 rest) =>
      if Ascii.eqb c0 "0" && (Ascii.eqb c1 "x" || Ascii.eqb c1 "X")
      then (16%Z, rest) else (10%Z, s)
  | _ => (10%Z, s)
  end.

(** The Number for an integer below 2^1024 in absolute value: the nearest
    integer with a significand of 53 bits, the even significand on a tie.
    Integers up to 2^53 in absolute value are left as they are. *)
Definition toDouble (z : Z) : Z :=
  let a := Z.abs z in
  if (a <? 2 ^ 53)%Z then z
  else
    let e := (Z.log2 a - 52)%Z in
    let q := Z.shiftr a e in
    let r := (a - Z.shiftl q e)%Z in
    let half := Z.shiftl 1 (e - 1) in
    let q' :=
      if (r <? half)%Z then q
      else if (half <? r)%Z then (q + 1)%Z
      else if Z.even q then q else (q + 1)%Z in
    (Z.sgn z * Z.shiftl q' e)%Z.

(** [parseInt(s)] with no radix given; [None] is [NaN]. *)
Definition parseInt (s : string) : option Z :=
  let (sign, unsigned) := stripSign (JS.trimStart s) in
  let (radix, digits) := stripHexPrefix unsigned in
  option_map (fun mathInt => toDouble (sign * mathInt))
             (parseDigits radix digits None).

(** [(parseInt(version) + 1).toString()]: the sum is a Number, rounded as
    [toDouble] has it.  The digits are those [JS.toString] writes, which are
    the script's for the integers up to 2^53 that the properties speak of. *)
Definition newVersion (version : string) : string :=
  match parseInt version with
  | Some n => JS.toString (VNumber (toDouble (n + 1)))
  | None => "NaN"
  end.

(** ** The FormMeta sheet *)

(** A data row of the [FormMeta] sheet: [data[i][0]] and [data[i][1]]. *)
Record metaRow : Type := {
  mKey : value;
  mValue : value
}.

(** The [meta] object of [readMeta]. *)
Module Meta.
Record t : Type := mk {
  formTitle : string;
  formDescription : string;
  version : string;
  createdAt : string
}.
End Meta.

(** The object [buildForm] returns and [writeMeta] writes back. *)
Module FormData.
Record t : Type := mk {
  formId : string;
  editUrl : string;
  publishedUrl : string;
  version : string;
  createdAt : string;
  responseSpreadsheetId : string;
  responseSheetName : string
}.
End FormData.

Definition defaultMeta : Meta.t :=
  Meta.mk "HBMP Survey Form" "Survey form generated from Question Bank"
          "1" EmptyString.

(** [key && value !== undefined && value !== '']. *)
Definition metaRowSet (row : metaRow) : bool :=
  JS.truthy (mKey row)
  && negb (JS.strictEq (mValue row) VUndefined)
  && negb (JS.strictEq (mValue row) (VString EmptyString)).

(** The body of the loop of [readMeta]. *)
Definition readMetaRow (meta : Meta.t) (row : metaRow) : Meta.t :=
  if metaRowSet row then
    if JS.strictEq (mKey row) (VString "FormTitle") then
      Meta.mk (JS.toString (mValue row)) (Meta.formDescription meta)
              (Meta.version meta) (Meta.createdAt meta)
    else if JS.strictEq (mKey row) (VString "FormDescription") then
      Meta.mk (Meta.formTitle meta) (JS.toString (mValue row))
              (Meta.version meta) (Meta.createdAt meta)
    else if JS.strictEq (mKey row) (VString "Version") then
      Meta.mk (Meta.formTitle meta) (Meta.formDescription meta)
              (JS.toString (mValue row)) (Meta.createdAt meta)
    else meta
  else meta.

Definition readMeta (sheet : option (list metaRow)) : completion Meta.t :=
  match sheet with
  | None => Throw "Error: FormMeta sheet not found"
  | Some rows => Normal (fold_left readMetaRow rows defaultMeta)
  end.

(** The [switch] of [writeMeta]: the value the row holds afterwards. *)
Definition writeMetaRow (formData : FormData.t) (row : metaRow) : metaRow :=
  let set (v : string) := {| mKey := mKey row; mValue := VString v |} in
  if JS.strictEq (mKey row) (VString "FormId")
  then set (FormData.formId formData)
  else if JS.strictEq (mKey row) (VString "FormEditUrl")
  then set (FormData.editUrl formData)
  else if JS.strictEq (mKey row) (VString "FormPublishedUrl")
  then set (FormData.publishedUrl formData)
  else if JS.strictEq (mKey row) (VString "Version")
  then set (FormData.version formData)
  else if JS.strictEq (mKey row) (VString "CreatedAt")
  then set (FormData.createdAt formData)
  else if JS.strictEq (mKey row) (VString "ResponseSpreadsheetId")
  then set (FormData.responseSpreadsheetId formData)
  else if JS.strictEq (mKey row) (VString "ResponseSheetName")
  then set (FormData.responseSheetName formData)
  else row.

(** [writeMeta]: the rows of the sheet after the write. *)
Definition writeMeta (formData : FormData.t) (sheet : option (list metaRow))
  : completion (list metaRow) :=
  match sheet with
  | None => Throw "Error: FormMeta sheet not found"
  | Some rows => Normal (map (writeMetaRow formData) rows)
  end.

(** What the host hands to [buildForm]: the id and the URLs of the form
    created, the time, the id of the spreadsheet and the name found for the
    response sheet. *)
Record host : Type := {
  hostFormId : string;
  hostEditUrl : string;
  hostPublishedUrl : string;
  hostNow : string;
  hostSpreadsheetId : string;
  hostResponseSheetName : string
}.

(** The object [buildForm] returns. *)
Definition buildFormData (h : host) (meta : Meta.t) : FormData.t :=
  FormData.mk (hostFormId h) (hostEditUrl h) (hostPublishedUrl h)
              (newVersion (Meta.version meta)) (hostNow h)
              (hostSpreadsheetId h) (hostResponseSheetName h).

(** ** readQuestions, the reader of the menu command *)

(** One turn of the row loop: the question pushed, if any.  The type is
    not checked here. *)
Definition readQuestionRow (row : questionRow) : list Question.t :=
  if isBlank (qQuestionText row) then []
  else
    let question := makeQuestion row in
    if isChoiceType (Question.type question)
       && (List.length (Question.options question) =? 0)%nat
    then []
    else [question].

Definition readQuestions (localeCompare : string -> string -> Z)
  (sheet : option (list questionRow)) : completion (list Question.t) :=
  match sheet with
  | None => Throw "Error: Questions sheet not found"
  | Some rows =>
      sortQuestions localeCompare (flat_map readQuestionRow rows)
  end.

(** ** generateNewForm, the menu command *)

(** The three sheets of the spreadsheet. *)
Record workbook : Type := {
  formMetaSheet : option (list metaRow);
  dataSheets : spreadsheet
}.

Definition metaRowOf (key value : string) : metaRow :=
  {| mKey := VString key; mValue := VString value |}.

Definition defaultMetaRows : list metaRow :=
  [ metaRowOf "FormTitle" "HBMP Survey Form";
    metaRowOf "FormDescription" "Survey form generated from Question Bank";
    metaRowOf "FormId" EmptyString;
    metaRowOf "FormEditUrl" EmptyString;
    metaRowOf "FormPublishedUrl" EmptyString;
    metaRowOf "Version" "1";
    metaRowOf "CreatedAt" EmptyString;
    metaRowOf "ResponseSpreadsheetId" EmptyString;
    metaRowOf "ResponseSheetName" EmptyString ].

(** [ensureSheetsExist] on the three sheets. *)
Definition ensureWorkbook (wb : workbook) : workbook :=
  {| formMetaSheet :=
       match formMetaSheet wb with
       | None => Some defaultMetaRows
       | Some rows => Some rows
       end;
     dataSheets := ensureSheetsExist (dataSheets wb) |}.

(** How the command ends: the alert shown, with the form created and the
    [FormMeta] rows written when it succeeds. *)
Inductive menuResult : Type :=
  | AlertNoQuestions
  | AlertSuccess (form : list instruction) (formData : FormData.t)
                 (metaRows : list metaRow)
  | AlertFailure (message : string).

Definition generateNewForm (localeCompare : string -> string -> Z)
  (h : host) (wb : workbook) : menuResult :=
  let wb' := ensureWorkbook wb in
  let run :=
    meta <- readMeta (formMetaSheet wb') ;;
    respondentDetails <-
      readRespondentDetails (respondentDetailsSheet (dataSheets wb')) ;;
    qs <- readQuestions localeCompare (questionsSheet (dataSheets wb')) ;;
    if (List.length qs =? 0)%nat then Normal AlertNoQuestions
    else
      let formData := buildFormData h meta in
      written <- writeMeta formData (formMetaSheet wb') ;;
      Normal (AlertSuccess (buildForm respondentDetails qs) formData written)
  in
  match run with
  | Normal r => r
  | Throw e => AlertFailure ("Failed to generate form: " ++ e)
  end.

(** ** doPost *)

(** The fields [doPost] reads from the request data; an absent field is
    [undefined]. *)
Record requestData : Type := {
  rSecret : value;
  rXHbmpSecret : value;
  rAction : value;
  rDryRun : value
}.

(** The body of the request: [JSON.parse] threw, or it returned [null], or
    the data parsed (the parameters, or the empty object, when there is no
    body). *)
Inductive postBody : Type :=
  | InvalidJson
  | NullData
  | RequestData (data : requestData).

(** [requestData.dryRun === true || requestData.dryRun === 'true']. *)
Definition requestDryRun (data : requestData) : bool :=
  JS.strictEq (rDryRun data) (VBoolean true)
  || JS.strictEq (rDryRun data) (VString "true").

(** [doPost], with the script property [HBMP_SECRET] ([None] when unset). *)
Definition doPost (localeCompare : string -> string -> Z)
  (hbmpSecret : option string) (body : postBody) (ss : spreadsheet)
  : response :=
  let expectedSecret :=
    match hbmpSecret with
    | Some s => VString s
    | None => VUndefined
    end in
  match body with
  | InvalidJson => ErrorResponse "Invalid JSON in request body"
  | NullData =>
      if negb (JS.truthy expectedSecret) then
        ErrorResponse "Server configuration error: HBMP_SECRET not set"
      else
        ErrorResponse
          ("Internal server error: "
           ++ "TypeError: Cannot read properties of null (reading 'secret')")
  | RequestData data =>
      if negb (JS.truthy expectedSecret) then
        ErrorResponse "Server configuration error: HBMP_SECRET not set"
      else
        let providedSecret := JS.or (rSecret data) (rXHbmpSecret data) in
        if negb (JS.truthy providedSecret)
           || negb (JS.strictEq providedSecret expectedSecret)
        then ErrorResponse "Unauthorized"
        else if JS.strictEq (rAction data) (VString "generateForm")
        then handleGenerateForm localeCompare (requestDryRun data) ss
        else ErrorResponse
               ("Unknown action: "
                ++ JS.toString (JS.or (rAction data) (VString "none")))
  end.

(** * More vocabulary *)

(** The checks of the validating row loop, on one row. *)
Definition rowAccepted (row : questionRow) : bool :=
  negb (isBlank (qQuestionText row))
  && negb (isChoiceType (rowType row)
           && (List.length (collectOptions (questionOptionCells row)) =? 0)%nat)
  && negb (isInvalidType (rowType row)).

(** The instructions that are items. *)
Definition isItem (i : instruction) : bool :=
  match i with
  | Item _ _ _ _ => true
  | PageBreak _ _ => false
  end.

(** A well-formed question: a valid type, a text that is not blank, choices
    exactly for the three choice types, at most five, none of them empty. *)
Definition wellFormedQuestion (q : Question.t) : Prop :=
  In (Question.type q) validTypes
  /\ JS.trim (Question.questionText q) <> EmptyString
  /\ (isChoiceType (Question.type q) = true -> Question.options q <> [])
  /\ (isChoiceType (Question.type q) = false -> Question.options q = [])
  /\ List.length (Question.options q) <= 5
  /\ Forall (fun o => o <> EmptyString) (Question.options q).

(** A well-formed respondent field: a name, and choices exactly for a
    DROPDOWN, none of them empty. *)
Definition wellFormedField (f : Field.t) : Prop :=
  Field.fieldName f <> EmptyString
  /\ (Field.type f = "DROPDOWN" -> Field.options f <> [])
  /\ (Field.type f <> "DROPDOWN" -> Field.options f = [])
  /\ Forall (fun o => o <> EmptyString) (Field.options f).

(** Two fields tie when their orders are equal. *)
Definition sameOrder (f x : Field.t) : bool :=
  Qeq_bool (Field.order x) (Field.order f).

(** The rows of [FormMeta] that set the title. *)
Definition setsTitle (row : metaRow) : bool :=
  metaRowSet row && JS.strictEq (mKey row) (VString "FormTitle").

(** The section of [s] collates before that of [t]; and the same, or
    [s] and [t] are equal. *)
Definition sectionBefore (localeCompare : string -> string -> Z)
  (s t : value) : Prop :=
  (localeCompare (JS.toString s) (JS.toString t) < 0)%Z.

Definition sectionUpTo (localeCompare : string -> string -> Z)
  (s t : value) : Prop :=
  s = t \/ sectionBefore localeCompare s t.

(** The collation tells the sections apart: two of them that compare equal
    are the same cell value. *)
Definition separates (localeCompare : string -> string -> Z)
  (sections : list value) : Prop :=
  forall s t, In s sections -> In t sections ->
    localeCompare (JS.toString s) (JS.toString t) = 0%Z -> s = t.

(** A question with a string for section, one of the [sections]. *)
Definition sortable (sections : list value) (q : Question.t) : Prop :=
  textSection q /\ In (Question.section q) sections.

(** [x] stays in front of [y] in the sort: [comparefn y x] returns, and
    not a negative number. *)
Definition keepsInFront {A : Type} (comparefn : A -> A -> completion Q)
  (x y : A) : Prop :=
  exists v, comparefn y x = Normal v /\ negative v = false.

(** A collation with ties between different strings, as the host's has:
    the control character U+0001 is ignored, the rest compared by
    character code. *)
Fixpoint dropControl (s : string) : string :=
  match s with
  | EmptyString => EmptyString
  | String c rest =>
      if Ascii.eqb c (ascii_of_nat 1) then dropControl rest
      else String c (dropControl rest)
  end.

Definition controlBlindCompare (a b : string) : Z :=
  codeUnitCompare (dropControl a) (dropControl b).

(** The section name [A] followed by U+0001. *)
Definition controlA : string :=
  String "A" (String (ascii_of_nat 1) EmptyString).

(** Three questions of orders 3, 2, 1 in sections [A], [controlA], [A]. *)
Definition tiedQuestions : list Question.t :=
  [questionOf "A" 3 "First"; questionOf controlA 2 "Second";
   questionOf "A" 1 "Third"].

Definition sampleHost : host :=
  {| hostFormId := "form-1"; hostEditUrl := "edit-url";
     hostPublishedUrl := "published-url"; hostNow := "now";
     hostSpreadsheetId := "sheet-1";
     hostResponseSheetName := "Form Responses 1" |}.

Definition sampleRows : list questionRow :=
  [ ageRow; languagesRow; howManyRow;
    questionRowOf (VString "B") 1 "MCQ" "Pick" "TRUE" (VString "x");
    questionRowOf (VString "A") 2 "PARAGRAPH" "Why" "FALSE" blank ].

Definition sampleSheets : spreadsheet :=
  sheetsOf [respondentRowOf "Name" "TEXT" 1] sampleRows.

Definition sampleWorkbook : workbook :=
  {| formMetaSheet :=
       Some [metaRowOf "FormTitle" "Survey"; metaRowOf "Version" "7"];
     dataSheets := sampleSheets |}.

Definition sampleRequest (dryRun : value) : requestData :=
  {| rSecret := VString "s3cret"; rXHbmpSecret := VUndefined;
     rAction := VString "generateForm"; rDryRun := dryRun |}.

(** * Properties *)

(** ** The sort *)

Lemma negative_spec (v : Q) : negative v = true <-> (v < 0)%Q.
Proof.
  unfold negative, Qlt. simpl. rewrite Z.ltb_lt. lia.
Qed.

Lemma negative_false (v : Q) : negative v = false <-> (0 <= v)%Q.
Proof.
  unfold negative, Qle. simpl. rewrite Z.ltb_ge. lia.
Qed.

Lemma bind_normal {A B : Type} (c : completion A) (k : A -> completion B)
  (b : B) :
  bind c k = Normal b -> exists a, c = Normal a /\ k a = Normal b.
Proof.
  destruct c as [a | e]; simpl; intros H; [ eauto | discriminate ].
Qed.

Ltac bind_inv H :=
  let a := fresh "a" in
  let Ha := fresh "Ha" in
  apply bind_normal in H; destruct H as [a [Ha H]].

Section SortFacts.

Context {A : Type}.
Variable comparefn : A -> A -> completion Q.

Lemma insert_perm (x : A) (s out : list A) :
  insert comparefn x s = Normal out -> Permutation (x :: s) out.
Proof.
  revert out. induction s as [| y rest IH]; simpl; intros out H.
  - injection H as <-. apply Permutation_refl.
  - bind_inv H. destruct (negative a).
    + bind_inv H. injection H as <-.
      apply Permutation_trans with (y :: x :: rest);
        [ apply perm_swap | apply perm_skip, IH, Ha0 ].
    + injection H as <-. apply Permutation_refl.
Qed.

Lemma sort_perm (l out : list A) :
  sort comparefn l = Normal out -> Permutation l out.
Proof.
  revert out. induction l as [| x rest IH]; simpl; intros out H.
  - injection H as <-. apply perm_nil.
  - bind_inv H.
    apply Permutation_trans with (x :: a);
      [ apply perm_skip, IH, Ha | apply insert_perm, H ].
Qed.

(** The sort completes when no call of [comparefn] on its elements throws. *)
Lemma insert_completes (x : A) (s : list A) :
  (forall y, In y s -> exists v, comparefn y x = Normal v) ->
  exists out, insert comparefn x s = Normal out.
Proof.
  induction s as [| y rest IH]; simpl; intros H.
  - eauto.
  - destruct (H y (or_introl eq_refl)) as [v ->]. simpl.
    destruct (negative v); [| eauto ].
    destruct IH as [out ->]; [ intros z Hz; apply H; now right |].
    simpl. eauto.
Qed.

Lemma sort_completes (l : list A) :
  (forall a b, In a l -> In b l -> exists v, comparefn a b = Normal v) ->
  exists out, sort comparefn l = Normal out.
Proof.
  induction l as [| x rest IH]; simpl; intros H.
  - eauto.
  - destruct IH as [s Hs]; [ intros a b Ha Hb; apply H; now right |].
    rewrite Hs. simpl. apply insert_completes.
    intros y Hy. apply H; [ right | now left ].
    apply Permutation_in with s;
      [ apply Permutation_sym, sort_perm, Hs | exact Hy ].
Qed.

(** Stability: elements that never compare strictly below one another
    keep their relative order. *)
Section Stable.

Variable p : A -> bool.
Hypothesis p_ties :
  forall a b v, p a = true -> p b = true ->
                comparefn a b = Normal v -> negative v = false.

Lemma insert_filter (x : A) (s out : list A) :
  insert comparefn x s = Normal out ->
  filter p out = filter p (x :: s).
Proof.
  revert out. induction s as [| y rest IH]; simpl; intros out H.
  - injection H as <-. reflexivity.
  - bind_inv H. destruct (negative a) eqn:Hneg.
    + bind_inv H. injection H as <-. simpl.
      rewrite (IH _ Ha0). simpl.
      destruct (p x) eqn:Hx, (p y) eqn:Hy; try reflexivity.
      rewrite (p_ties y x a Hy Hx Ha) in Hneg. discriminate.
    + injection H as <-. reflexivity.
Qed.

Lemma sort_stable (l out : list A) :
  sort comparefn l = Normal out -> filter p out = filter p l.
Proof.
  revert out. induction l as [| x rest IH]; simpl; intros out H.
  - injection H as <-. reflexivity.
  - bind_inv H. rewrite (insert_filter _ _ _ H). simpl.
    now rewrite (IH _ Ha).
Qed.

End Stable.

(** Sortedness, for a comparison function that decides a transitive
    relation [le] on the elements in [D]. *)
Section Ordered.

Variable D : A -> Prop.
Variable le : A -> A -> Prop.
Hypothesis below :
  forall a b v, D a -> D b -> comparefn a b = Normal v ->
                negative v = true -> le a b.
Hypothesis not_below :
  forall a b v, D a -> D b -> comparefn a b = Normal v ->
                negative v = false -> le b a.
Hypothesis le_trans :
  forall a b c, D a -> D b -> D c -> le a b -> le b c -> le a c.

Lemma insert_sorted (x : A) (s out : list A) :
  D x -> Forall D s -> StronglySorted le s ->
  insert comparefn x s = Normal out -> StronglySorted le out.
Proof.
  intros Dx. revert out.
  induction s as [| y rest IH]; simpl; intros out Ds Hs H.
  - injection H as <-. repeat constructor.
  - inversion Ds as [| ? ? Dy Drest]; subst.
    inversion Hs as [| ? ? Hrest Hy]; subst.
    bind_inv H. destruct (negative a) eqn:Hneg.
    + bind_inv H. injection H as <-.
      constructor; [ apply (IH _ Drest Hrest Ha0) |].
      apply Forall_forall. intros z Hz.
      apply Permutation_in with (l' := x :: rest) in Hz;
        [| apply Permutation_sym, insert_perm, Ha0 ].
      destruct Hz as [<- | Hz].
      * apply (below y x a Dy Dx Ha Hneg).
      * rewrite Forall_forall in Hy. now apply Hy.
    + injection H as <-.
      assert (Hxy : le x y) by apply (not_below y x a Dy Dx Ha Hneg).
      constructor; [ exact Hs |].
      constructor; [ exact Hxy |].
      rewrite Forall_forall in *. intros z Hz.
      apply (le_trans x y z Dx Dy (Drest z Hz) Hxy (Hy z Hz)).
Qed.

Lemma sort_sorted (l out : list A) :
  Forall D l -> sort comparefn l = Normal out -> StronglySorted le out.
Proof.
  revert out. induction l as [| x rest IH]; simpl; intros out Dl H.
  - injection H as <-. constructor.
  - inversion Dl as [| ? ? Dx Drest]; subst. bind_inv H.
    apply (insert_sorted x a out Dx); [| now apply IH | exact H ].
    rewrite Forall_forall in *. intros z Hz. apply Drest.
    apply Permutation_in with a;
      [ apply Permutation_sym, sort_perm, Ha | exact Hz ].
Qed.

(** The sorted, stable rearrangement of a list is unique: whichever
    stable algorithm the engine runs, it returns the list [sort] returns. *)
Variable tie : A -> A -> bool.
Hypothesis tie_refl : forall a, tie a a = true.
Hypothesis le_tie :
  forall a b, D a -> D b -> le a b -> le b a -> tie a b = true.

Lemma stable_sorted_unique (l1 l2 : list A) :
  Forall D l1 -> Permutation l1 l2 ->
  StronglySorted le l1 -> StronglySorted le l2 ->
  (forall a, filter (tie a) l1 = filter (tie a) l2) ->
  l1 = l2.
Proof.
  revert l2. induction l1 as [| h1 t1 IH]; intros l2 Dl Hp S1 S2 Hf.
  - now apply Permutation_nil in Hp.
  - destruct l2 as [| h2 t2];
      [ apply Permutation_sym, Permutation_nil in Hp; discriminate |].
    inversion Dl as [| ? ? Dh1 Dt1]; subst.
    inversion S1 as [| ? ? S1' H1]; subst.
    inversion S2 as [| ? ? S2' H2]; subst.
    rewrite Forall_forall in H1, H2, Dt1.
    assert (Hhead : h1 = h2).
    { assert (In2 : In h2 (h1 :: t1))
        by (apply Permutation_in with (h2 :: t2);
            [ now apply Permutation_sym | now left ]).
      assert (In1 : In h1 (h2 :: t2))
        by (apply Permutation_in with (h1 :: t1); [ exact Hp | now left ]).
      destruct In2 as [E | In2]; [ exact E |].
      destruct In1 as [E | In1]; [ now symmetry |].
      assert (Ht : tie h1 h2 = true)
        by (apply le_tie; auto).
      specialize (Hf h1). cbn [filter] in Hf.
      rewrite tie_refl, Ht in Hf. now injection Hf. }
    subst h2. f_equal. apply IH.
    + now apply Forall_forall.
    + now apply Permutation_cons_inv with h1.
    + exact S1'.
    + exact S2'.
    + intros a. specialize (Hf a). cbn [filter] in Hf.
      destruct (tie a h1); [ now injection Hf | exact Hf ].
Qed.

End Ordered.

(** A list the sort returns is returned as it is when sorted again, for a
    comparison function that never puts two elements strictly below one
    another. *)
Section Kept.

Variable D : A -> Prop.
Hypothesis below_keeps :
  forall a b v, D a -> D b -> comparefn a b = Normal v ->
                negative v = true -> keepsInFront comparefn a b.

Lemma insert_head (x : A) (s out : list A) :
  insert comparefn x s = Normal out ->
  exists hd tl,
    out = hd :: tl /\ (hd = x \/ exists rest, s = hd :: rest).
Proof.
  destruct s as [| y rest]; simpl; intros H.
  - injection H as <-. eauto.
  - bind_inv H. destruct (negative a).
    + bind_inv H. injection H as <-. eauto 6.
    + injection H as <-. eauto.
Qed.

Lemma insert_kept (x : A) (s out : list A) :
  D x -> Forall D s -> Sorted (keepsInFront comparefn) s ->
  insert comparefn x s = Normal out ->
  Sorted (keepsInFront comparefn) out.
Proof.
  intros Dx. revert out.
  induction s as [| y rest IH]; simpl; intros out Ds Hs H.
  - injection H as <-. repeat constructor.
  - inversion Ds as [| ? ? Dy Drest]; subst.
    inversion Hs as [| ? ? Hrest Hy]; subst.
    bind_inv H. destruct (negative a) eqn:Hneg.
    + bind_inv H. injection H as <-.
      constructor; [ apply (IH _ Drest Hrest Ha0) |].
      destruct (insert_head x rest a0 Ha0) as (hd & tl & -> & [-> | Hhd]).
      * constructor. apply (below_keeps y x a Dy Dx Ha Hneg).
      * destruct Hhd as [rest' ->]. constructor.
        now inversion Hy.
    + injection H as <-.
      constructor; [ exact Hs |]. constructor. exists a. now split.
Qed.

Lemma sort_kept (l out : list A) :
  Forall D l -> sort comparefn l = Normal out ->
  Sorted (keepsInFront comparefn) out.
Proof.
  revert out. induction l as [| x rest IH]; simpl; intros out Dl H.
  - injection H as <-. constructor.
  - inversion Dl as [| ? ? Dx Drest]; subst. bind_inv H.
    apply (insert_kept x a out Dx); [| now apply IH | exact H ].
    rewrite Forall_forall in *. intros z Hz. apply Drest.
    apply Permutation_in with a;
      [ apply Permutation_sym, sort_perm, Ha | exact Hz ].
Qed.

Lemma sort_kept_id (l : list A) :
  Sorted (keepsInFront comparefn) l -> sort comparefn l = Normal l.
Proof.
  induction 1 as [| x rest _ IH Hx]; simpl; [ reflexivity |].
  rewrite IH. simpl.
  destruct Hx as [| y rest' [v [Hc Hv]]]; [ reflexivity |].
  simpl. rewrite Hc. simpl. now rewrite Hv.
Qed.

End Kept.

End SortFacts.

(** ** The order of the questions *)

Arguments JS.value_eq_dec : simpl never.

Lemma strictEq_true (a b : value) : JS.strictEq a b = true <-> a = b.
Proof.
  unfold JS.strictEq. destruct (JS.value_eq_dec a b); split; intros H;
    try reflexivity; try assumption; try discriminate; contradiction.
Qed.

Lemma strictEq_false (a b : value) : JS.strictEq a b = false <-> a <> b.
Proof.
  unfold JS.strictEq. destruct (JS.value_eq_dec a b); split; intros H;
    try reflexivity; try assumption; try discriminate; contradiction.
Qed.

Section QuestionOrder.

Variable localeCompare : string -> string -> Z.

(** The collation orders strings consistently, and tells apart the
    [sections] at hand. *)
Variable sections : list value.
Hypothesis sections_separated : separates localeCompare sections.
Hypothesis localeCompare_antisym :
  forall a b, (localeCompare a b < 0 <-> 0 < localeCompare b a)%Z.
Hypothesis localeCompare_trans :
  forall a b c, (localeCompare a b < 0 -> localeCompare b c < 0 ->
                 localeCompare a c < 0)%Z.

Lemma compareQuestions_text (a b : Question.t) :
  textSection a -> exists v, compareQuestions localeCompare a b = Normal v.
Proof.
  unfold textSection, compareQuestions. intros Ha.
  destruct (Question.section a) as [| s | |]; try contradiction.
  destruct (negb _); [| eauto ].
  destruct (JS.strictEq (VString s) _); [ eauto |].
  destruct (JS.strictEq _ _); eauto.
Qed.

Lemma negative_inject_Z (z : Z) : negative (inject_Z z) = (z <? 0)%Z.
Proof. reflexivity. Qed.

Lemma compareQuestions_below (a b : Question.t) (v : Q) :
  textSection a -> textSection b ->
  compareQuestions localeCompare a b = Normal v -> negative v = true ->
  questionOrder localeCompare a b.
Proof.
  unfold textSection, compareQuestions, questionOrder.
  intros Ha Hb.
  destruct (Question.section a) as [| sa | |]; try contradiction.
  destruct (Question.section b) as [| sb | |]; try contradiction.
  unfold JS.strictEq.
  destruct (JS.value_eq_dec (VString sa) (VString sb)) as [E | N]; simpl.
  - intros [= <-] Hv. apply negative_spec in Hv. lra.
  - destruct (JS.value_eq_dec (VString sa) (VString EmptyString)).
    + intros [= <-]. discriminate.
    + destruct (JS.value_eq_dec (VString sb) (VString EmptyString)).
      * intros _ _. split; [ assumption | now left ].
      * intros [= <-] Hv. rewrite negative_inject_Z in Hv.
        apply Z.ltb_lt in Hv. split; [ assumption | now right ].
Qed.

Lemma compareQuestions_not_below (a b : Question.t) (v : Q) :
  sortable sections a -> sortable sections b ->
  compareQuestions localeCompare a b = Normal v -> negative v = false ->
  questionOrder localeCompare b a.
Proof.
  unfold sortable, textSection, compareQuestions, questionOrder.
  intros [Ha Ia] [Hb Ib]. revert Ia Ib.
  destruct (Question.section a) as [| sa | |]; try contradiction.
  destruct (Question.section b) as [| sb | |]; try contradiction.
  intros Ia Ib. unfold JS.strictEq.
  destruct (JS.value_eq_dec (VString sa) (VString sb)) as [E | N]; simpl.
  - intros [= <-] Hv. apply negative_false in Hv.
    destruct (JS.value_eq_dec (VString sb) (VString sa));
      [ lra | congruence ].
  - destruct (JS.value_eq_dec (VString sb) (VString sa));
      [ congruence |].
    destruct (JS.value_eq_dec (VString sa) (VString EmptyString)).
    + intros _ _. split; [ congruence | now left ].
    + destruct (JS.value_eq_dec (VString sb) (VString EmptyString)).
      * intros [= <-]. discriminate.
      * intros [= <-] Hv. rewrite negative_inject_Z in Hv.
        apply Z.ltb_ge in Hv. split; [ assumption | right ].
        apply localeCompare_antisym.
        assert (localeCompare sa sb <> 0%Z)
          by (intros H0; apply N;
              apply (sections_separated _ _ Ia Ib H0)).
        lia.
Qed.

Lemma localeCompare_irrefl (s : string) : ~ (localeCompare s s < 0)%Z.
Proof.
  intros H. pose proof (proj1 (localeCompare_antisym s s) H). lia.
Qed.

Lemma questionOrder_trans (a b c : Question.t) :
  textSection a -> textSection b -> textSection c ->
  questionOrder localeCompare a b -> questionOrder localeCompare b c ->
  questionOrder localeCompare a c.
Proof.
  unfold textSection, questionOrder. intros Ha Hb Hc.
  destruct (Question.section a) as [| sa | |]; try contradiction.
  destruct (Question.section b) as [| sb | |]; try contradiction.
  destruct (Question.section c) as [| sc | |]; try contradiction.
  simpl.
  destruct (JS.value_eq_dec (VString sa) (VString sb)) as [[= ->] | Nab];
    destruct (JS.value_eq_dec (VString sb) (VString sc)) as [[= ->] | Nbc].
  - destruct (JS.value_eq_dec (VString sc) (VString sc));
      [ intros; lra | congruence ].
  - destruct (JS.value_eq_dec (VString sb) (VString sc));
      [ congruence | intros _ H; exact H ].
  - destruct (JS.value_eq_dec (VString sa) (VString sc));
      [ congruence | intros H _; exact H ].
  - intros [Na [Eb | Lab]] [Nb [Ec | Lbc]]; try contradiction.
    + destruct (JS.value_eq_dec (VString sa) (VString sc)) as [[= ->] |];
        [ contradiction | split; [ assumption | now left ] ].
    + destruct (JS.value_eq_dec (VString sa) (VString sc)) as [[= ->] |].
      * exfalso. apply (localeCompare_irrefl sc).
        apply (localeCompare_trans sc sb sc Lab Lbc).
      * split; [ assumption | right ].
        apply (localeCompare_trans sa sb sc Lab Lbc).
Qed.

(** Ties never compare strictly below one another. *)
Lemma sameKey_ties (q a b : Question.t) (v : Q) :
  sameKey q a = true -> sameKey q b = true ->
  compareQuestions localeCompare a b = Normal v -> negative v = false.
Proof.
  unfold sameKey, compareQuestions.
  intros Ha Hb. apply andb_prop in Ha, Hb.
  destruct Ha as [Sa Oa], Hb as [Sb Ob].
  apply strictEq_true in Sa, Sb. apply Qeq_bool_iff in Oa, Ob.
  assert (E : JS.strictEq (Question.section a) (Question.section b) = true)
    by (apply strictEq_true; congruence).
  rewrite E. simpl. intros [= <-]. apply negative_false. lra.
Qed.

Lemma sortQuestions_completes (qs : list Question.t) :
  Forall textSection qs ->
  exists out, sortQuestions localeCompare qs = Normal out.
Proof.
  intros H. apply sort_completes. intros a b Ha _.
  apply compareQuestions_text. rewrite Forall_forall in H. now apply H.
Qed.

End QuestionOrder.

(** ** The row loop of readQuestionsWithValidation *)

Lemma scanQuestionRows_app (pre post : list questionRow) (st : scanState) :
  scanQuestionRows (pre ++ post) st
  = scanQuestionRows post (scanQuestionRows pre st).
Proof. apply fold_left_app. Qed.

(** What one row adds does not depend on what the loop has gathered. *)
Lemma processQuestionRow_frame (st : scanState) (row : questionRow) :
  questions (processQuestionRow st row)
  = questions st ++ questions (processQuestionRow initialScan row)
  /\ skipped (processQuestionRow st row)
     = skipped st + skipped (processQuestionRow initialScan row)
  /\ errs (processQuestionRow st row)
     = errs st ++ errs (processQuestionRow initialScan row).
Proof.
  unfold processQuestionRow.
  destruct (isBlank (qQuestionText row)); simpl;
    [ rewrite !app_nil_r; repeat split; lia |].
  destruct (isChoiceType (rowType row) && _); simpl;
    [ rewrite !app_nil_r; repeat split; lia |].
  destruct (isInvalidType (rowType row)); simpl;
    rewrite ?app_nil_r; repeat split; lia.
Qed.

Lemma scanQuestionRows_frame (rows : list questionRow) (st : scanState) :
  questions (scanQuestionRows rows st)
  = questions st ++ questions (scanQuestionRows rows initialScan)
  /\ skipped (scanQuestionRows rows st)
     = skipped st + skipped (scanQuestionRows rows initialScan)
  /\ errs (scanQuestionRows rows st)
     = errs st ++ errs (scanQuestionRows rows initialScan).
Proof.
  revert st. induction rows as [| row rows IH]; intros st.
  - simpl. rewrite !app_nil_r. repeat split; lia.
  - change (scanQuestionRows (row :: rows) st)
      with (scanQuestionRows rows (processQuestionRow st row)).
    change (scanQuestionRows (row :: rows) initialScan)
      with (scanQuestionRows rows (processQuestionRow initialScan row)).
    destruct (IH (processQuestionRow st row)) as [Q1 [S1 E1]].
    destruct (IH (processQuestionRow initialScan row)) as [Q2 [S2 E2]].
    destruct (processQuestionRow_frame st row) as [Q3 [S3 E3]].
    rewrite Q1, S1, E1, Q2, S2, E2, Q3, S3, E3, !app_assoc.
    repeat split; lia.
Qed.

(** The three components of the loop state over [pre ++ row :: post]. *)
Lemma scanQuestionRows_split (pre post : list questionRow)
  (row : questionRow) :
  let part rows := scanQuestionRows rows initialScan in
  questions (part (pre ++ row :: post))
  = questions (part pre) ++ questions (processQuestionRow initialScan row)
    ++ questions (part post)
  /\ skipped (part (pre ++ row :: post))
     = skipped (part pre) + skipped (processQuestionRow initialScan row)
       + skipped (part post)
  /\ errs (part (pre ++ row :: post))
     = errs (part pre) ++ errs (processQuestionRow initialScan row)
       ++ errs (part post).
Proof.
  intros part. unfold part. rewrite scanQuestionRows_app.
  change (scanQuestionRows (row :: post) ?st)
    with (scanQuestionRows post (processQuestionRow st row)).
  destruct (scanQuestionRows_frame post
              (processQuestionRow (scanQuestionRows pre initialScan) row))
    as [Q1 [S1 E1]].
  destruct (processQuestionRow_frame (scanQuestionRows pre initialScan) row)
    as [Q2 [S2 E2]].
  rewrite Q1, S1, E1, Q2, S2, E2, <- !app_assoc. repeat split; lia.
Qed.

Lemma scanQuestionRows_join (pre post : list questionRow) :
  let part rows := scanQuestionRows rows initialScan in
  questions (part (pre ++ post)) = questions (part pre) ++ questions (part post)
  /\ skipped (part (pre ++ post)) = skipped (part pre) + skipped (part post)
  /\ errs (part (pre ++ post)) = errs (part pre) ++ errs (part post).
Proof.
  intros part. unfold part. rewrite scanQuestionRows_app.
  apply scanQuestionRows_frame.
Qed.

Lemma processQuestionRow_text (row : questionRow) :
  textSectionRow row ->
  Forall textSection (questions (processQuestionRow initialScan row)).
Proof.
  intros H. unfold processQuestionRow.
  destruct (isBlank _); simpl; [ constructor |].
  destruct (_ && _); simpl; [ constructor |].
  destruct (isInvalidType _); simpl; repeat constructor. exact H.
Qed.

Lemma scanQuestionRows_text (rows : list questionRow) :
  Forall textSectionRow rows ->
  Forall textSection (questions (scanQuestionRows rows initialScan)).
Proof.
  induction rows as [| row rows IH]; intros H; [ constructor |].
  inversion H as [| ? ? Hrow Hrows]; subst.
  destruct (scanQuestionRows_split [] rows row) as [Q _].
  change ([] ++ row :: rows) with (row :: rows) in Q.
  rewrite Q. change (questions (scanQuestionRows [] initialScan))
    with (@nil Question.t).
  rewrite app_nil_l. apply Forall_app. split.
  - now apply processQuestionRow_text.
  - now apply IH.
Qed.

(** The reader returns once the loop has run and the sort has completed. *)
Lemma readQuestionsWithValidation_rows
  (localeCompare : string -> string -> Z) (rows : list questionRow)
  (sorted : list Question.t) :
  rows <> [] ->
  sortQuestions localeCompare
    (questions (scanQuestionRows rows initialScan)) = Normal sorted ->
  readQuestionsWithValidation localeCompare (Some rows)
  = Normal (sorted,
            {| sectionsCount :=
                 List.length (sections (scanQuestionRows rows initialScan));
               questionsCount := List.length sorted;
               skippedCount := skipped (scanQuestionRows rows initialScan);
               errors := errs (scanQuestionRows rows initialScan) |}).
Proof.
  intros Hne Hs. destruct rows as [| row rows]; [ contradiction |].
  unfold readQuestionsWithValidation. rewrite Hs. reflexivity.
Qed.

(** ** readRespondentDetails never throws *)

Lemma readRespondentDetails_returns (sheet : option (list respondentRow)) :
  exists fields, readRespondentDetails sheet = Normal fields.
Proof.
  destruct sheet as [rows |]; simpl; [| eauto ].
  apply sort_completes. intros a b _ _. unfold compareFields. eauto.
Qed.

(** ** The code-unit collation satisfies the laws assumed of the host's *)

Lemma codeUnitCompare_eq (a b : string) :
  codeUnitCompare a b = 0%Z -> a = b.
Proof.
  unfold codeUnitCompare. destruct (String.compare a b) eqn:E;
    try discriminate.
  intros _. now apply String.compare_eq_iff.
Qed.

Lemma codeUnitCompare_lt (a b : string) :
  (codeUnitCompare a b < 0)%Z <-> OrderedTypeEx.String_as_OT.lt a b.
Proof.
  rewrite <- OrderedTypeEx.String_as_OT.cmp_lt.
  unfold codeUnitCompare, OrderedTypeEx.String_as_OT.cmp.
  destruct (String.compare a b); split; intros H;
    try reflexivity; try discriminate; lia.
Qed.

Lemma codeUnitCompare_antisym (a b : string) :
  (codeUnitCompare a b < 0 <-> 0 < codeUnitCompare b a)%Z.
Proof.
  unfold codeUnitCompare. rewrite (String.compare_antisym b a).
  destruct (String.compare a b); simpl; lia.
Qed.

Lemma codeUnitCompare_trans (a b c : string) :
  (codeUnitCompare a b < 0 -> codeUnitCompare b c < 0 ->
   codeUnitCompare a c < 0)%Z.
Proof.
  rewrite !codeUnitCompare_lt.
  apply OrderedTypeEx.String_as_OT.lt_trans.
Qed.

Lemma codeUnitCompare_separates (rows : list questionRow) :
  Forall textSectionRow rows ->
  separates codeUnitCompare (map rowSection rows).
Proof.
  intros Htext s t Hs Ht. rewrite Forall_forall in Htext.
  apply in_map_iff in Hs, Ht.
  destruct Hs as [r1 [<- H1]], Ht as [r2 [<- H2]].
  pose proof (Htext r1 H1) as T1. pose proof (Htext r2 H2) as T2.
  unfold textSectionRow, textSection in T1, T2.
  change (Question.section (makeQuestion r1)) with (rowSection r1) in T1.
  change (Question.section (makeQuestion r2)) with (rowSection r2) in T2.
  destruct (rowSection r1) as [| a | |]; try contradiction.
  destruct (rowSection r2) as [| b | |]; try contradiction.
  cbn [JS.toString]. intros E. f_equal. now apply codeUnitCompare_eq.
Qed.

(** ** A collation with ties satisfies the laws too *)

Lemma controlBlindCompare_antisym (a b : string) :
  (controlBlindCompare a b < 0 <-> 0 < controlBlindCompare b a)%Z.
Proof. apply codeUnitCompare_antisym. Qed.

Lemma controlBlindCompare_trans (a b c : string) :
  (controlBlindCompare a b < 0 -> controlBlindCompare b c < 0 ->
   controlBlindCompare a c < 0)%Z.
Proof. apply codeUnitCompare_trans. Qed.

Lemma controlBlindCompare_tie : controlBlindCompare controlA "A" = 0%Z.
Proof. reflexivity. Qed.

(** ** The sorter *)

Lemma separates_incl (localeCompare : string -> string -> Z)
  (some all : list value) :
  incl some all -> separates localeCompare all ->
  separates localeCompare some.
Proof.
  intros Hincl Hall s t Hs Ht. apply Hall; now apply Hincl.
Qed.

Section Sorter.

Variable localeCompare : string -> string -> Z.

Hypothesis localeCompare_antisym :
  forall a b, (localeCompare a b < 0 <-> 0 < localeCompare b a)%Z.
Hypothesis localeCompare_trans :
  forall a b c, (localeCompare a b < 0 -> localeCompare b c < 0 ->
                 localeCompare a c < 0)%Z.

Lemma sortQuestions_sorted (qs out : list Question.t) :
  Forall textSection qs ->
  separates localeCompare (map Question.section qs) ->
  sortQuestions localeCompare qs = Normal out ->
  StronglySorted (questionOrder localeCompare) out.
Proof.
  intros Htext Hsep.
  apply (sort_sorted (compareQuestions localeCompare)
           (sortable (map Question.section qs))).
  - intros a b v [Ha _] [Hb _]. now apply compareQuestions_below.
  - now apply (compareQuestions_not_below localeCompare
                 (map Question.section qs)).
  - intros a b c [Ha _] [Hb _] [Hc _]. now apply questionOrder_trans.
  - rewrite Forall_forall in *. intros q Hq.
    split; [ now apply Htext | now apply in_map ].
Qed.

(** Two questions are never strictly below one another. *)
Lemma compareQuestions_antisym (a b : Question.t) (v : Q) :
  textSection a -> textSection b ->
  compareQuestions localeCompare a b = Normal v -> negative v = true ->
  keepsInFront (compareQuestions localeCompare) a b.
Proof.
  unfold textSection, compareQuestions, keepsInFront.
  intros Ha Hb.
  destruct (Question.section a) as [| sa | |]; try contradiction.
  destruct (Question.section b) as [| sb | |]; try contradiction.
  unfold JS.strictEq.
  destruct (JS.value_eq_dec (VString sa) (VString sb)) as [E | N]; simpl.
  - intros [= <-] Hv. apply negative_spec in Hv.
    destruct (JS.value_eq_dec (VString sb) (VString sa));
      [| congruence ].
    simpl. eexists; split; [ reflexivity |]. apply negative_false. lra.
  - destruct (JS.value_eq_dec (VString sb) (VString sa));
      [ congruence |]. simpl.
    destruct (JS.value_eq_dec (VString sa) (VString EmptyString)).
    + intros [= <-]. discriminate.
    + destruct (JS.value_eq_dec (VString sb) (VString EmptyString)).
      * intros _ _. eexists; split; reflexivity.
      * intros [= <-] Hv. rewrite negative_inject_Z in Hv.
        apply Z.ltb_lt in Hv. eexists; split; [ reflexivity |].
        rewrite negative_inject_Z. apply Z.ltb_ge.
        apply localeCompare_antisym in Hv. lia.
Qed.

Lemma questionOrder_tie (a b : Question.t) :
  textSection a -> textSection b ->
  questionOrder localeCompare a b -> questionOrder localeCompare b a ->
  sameKey a b = true.
Proof.
  unfold textSection, questionOrder, sameKey. intros Ha Hb.
  destruct (Question.section a) as [| sa | |]; try contradiction.
  destruct (Question.section b) as [| sb | |]; try contradiction.
  cbn [JS.toString].
  destruct (JS.value_eq_dec (VString sa) (VString sb)) as [E | N].
  - destruct (JS.value_eq_dec (VString sb) (VString sa)); [| congruence ].
    intros H1 H2. apply andb_true_intro. split.
    + apply strictEq_true. congruence.
    + apply Qeq_bool_iff. lra.
  - destruct (JS.value_eq_dec (VString sb) (VString sa)); [ congruence |].
    intros [Na [Eb | Lab]] [Nb [Ea | Lba]]; try contradiction.
    apply localeCompare_antisym in Lab. lia.
Qed.

(** Every stable, sorted rearrangement of the questions is the list that
    [sortQuestions] returns. *)
Lemma sortQuestions_unique (qs out other : list Question.t) :
  Forall textSection qs ->
  separates localeCompare (map Question.section qs) ->
  sortQuestions localeCompare qs = Normal out ->
  Permutation qs other ->
  StronglySorted (questionOrder localeCompare) other ->
  (forall q, filter (sameKey q) other = filter (sameKey q) qs) ->
  other = out.
Proof.
  intros Htext Hsep Hout Hp Hs Hf.
  apply (stable_sorted_unique textSection (questionOrder localeCompare)
           sameKey).
  - intros a. unfold sameKey. apply andb_true_intro. split.
    + now apply strictEq_true.
    + now apply Qeq_bool_iff.
  - apply questionOrder_tie.
  - rewrite Forall_forall in *. intros q Hq. apply Htext.
    now apply Permutation_in with other; [ apply Permutation_sym |].
  - apply Permutation_trans with qs;
      [ now apply Permutation_sym | apply (sort_perm _ _ _ Hout) ].
  - exact Hs.
  - apply (sortQuestions_sorted qs out Htext Hsep Hout).
  - intros q. rewrite Hf. symmetry.
    apply (sort_stable (compareQuestions localeCompare) (sameKey q));
      [| exact Hout ].
    intros x y v. apply sameKey_ties.
Qed.



End Sorter.

(** ** The request handler *)

Lemma handleGenerateForm_eval (localeCompare : string -> string -> Z)
  (dryRun : bool) (ss : spreadsheet) (fields : list Field.t)
  (qs : list Question.t) (stats : validationStats) :
  readRespondentDetails (respondentDetailsSheet (ensureSheetsExist ss))
  = Normal fields ->
  readQuestionsWithValidation localeCompare
    (questionsSheet (ensureSheetsExist ss)) = Normal (qs, stats) ->
  handleGenerateForm localeCompare dryRun ss
  = if (List.length qs =? 0)%nat && (skippedCount stats =? 0)%nat
    then NoQuestionsFound stats
    else if dryRun then DryRunCompleted stats
         else FormCreated (buildForm fields qs) stats.
Proof.
  intros Hf Hq. unfold handleGenerateForm, generateForm.
  rewrite Hf, Hq. simpl.
  destruct ((List.length qs =? 0)%nat && (skippedCount stats =? 0)%nat);
    [ reflexivity | now destruct dryRun ].
Qed.

Lemma ensureSheetsExist_questions (ss : spreadsheet)
  (rows : list questionRow) :
  questionsSheet ss = Some rows ->
  questionsSheet (ensureSheetsExist ss) = Some rows.
Proof. intros H. simpl. now rewrite H. Qed.

(** For rows whose [Section] cells hold text the reader returns. *)
Lemma readQuestionsWithValidation_returns
  (localeCompare : string -> string -> Z) (rows : list questionRow) :
  rows <> [] ->
  Forall textSection (questions (scanQuestionRows rows initialScan)) ->
  exists sorted,
    sortQuestions localeCompare
      (questions (scanQuestionRows rows initialScan)) = Normal sorted
    /\ readQuestionsWithValidation localeCompare (Some rows)
       = Normal (sorted,
                 {| sectionsCount :=
                      List.length
                        (sections (scanQuestionRows rows initialScan));
                    questionsCount := List.length sorted;
                    skippedCount :=
                      skipped (scanQuestionRows rows initialScan);
                    errors := errs (scanQuestionRows rows initialScan) |}).
Proof.
  intros Hne Htext.
  destruct (sortQuestions_completes localeCompare _ Htext) as [sorted Hs].
  exists sorted. split; [ exact Hs |].
  now apply readQuestionsWithValidation_rows.
Qed.

(** ** Rejected rows *)

Lemma invalid_type_checks (type : string) :
  ~ In type validTypes ->
  isChoiceType type = false /\ isInvalidType type = true.
Proof.
  intros H. unfold isChoiceType, isInvalidType, validTypes in *.
  cbn [existsb].
  destruct (String.eqb_spec type "MCQ");
    [ exfalso; apply H; subst; simpl; auto 10 |].
  destruct (String.eqb_spec type "CHECKBOX");
    [ exfalso; apply H; subst; simpl; auto 10 |].
  destruct (String.eqb_spec type "DROPDOWN");
    [ exfalso; apply H; subst; simpl; auto 10 |].
  destruct (String.eqb_spec type "TEXT");
    [ exfalso; apply H; subst; simpl; auto 10 |].
  destruct (String.eqb_spec type "PARAGRAPH");
    [ exfalso; apply H; subst; simpl; auto 10 |].
  split; reflexivity.
Qed.

Lemma processQuestionRow_invalid_type (row : questionRow) :
  isBlank (qQuestionText row) = false ->
  ~ In (rowType row) validTypes ->
  questions (processQuestionRow initialScan row) = []
  /\ skipped (processQuestionRow initialScan row) = 1
  /\ errs (processQuestionRow initialScan row)
     = [invalidTypeError (JS.toString (qQuestionText row)) (rowType row)].
Proof.
  intros Hb Ht. destruct (invalid_type_checks _ Ht) as [Hc Hi].
  unfold processQuestionRow. rewrite Hb. simpl. rewrite Hc, Hi. simpl.
  repeat split.
Qed.

Lemma collectOptions_blank (cells : list value) :
  Forall (fun cell => isBlank cell = true) cells ->
  collectOptions cells = [].
Proof.
  induction 1 as [| cell cells Hcell _ IH]; simpl; [ reflexivity |].
  unfold isBlank in Hcell.
  destruct (JS.truthy cell); simpl in *; [| exact IH ].
  now rewrite Hcell.
Qed.

Lemma processQuestionRow_no_options (row : questionRow) :
  isBlank (qQuestionText row) = false ->
  isChoiceType (rowType row) = true ->
  Forall (fun cell => isBlank cell = true) (questionOptionCells row) ->
  questions (processQuestionRow initialScan row) = []
  /\ skipped (processQuestionRow initialScan row) = 1
  /\ errs (processQuestionRow initialScan row)
     = [noOptionsError (JS.toString (qQuestionText row)) (rowType row)].
Proof.
  intros Hb Hc Ho. unfold processQuestionRow. rewrite Hb.
  unfold makeQuestion.
  cbn [Question.type Question.options Question.section
       Question.questionText].
  rewrite Hc, (collectOptions_blank _ Ho). cbn. repeat split.
Qed.

(** A row that adds no question, one skip and one message [msg] to the
    loop, among rows [pre] and [post] whose sections hold text. *)
Lemma rejected_row_report (localeCompare : string -> string -> Z)
  (dryRun : bool) (ss : spreadsheet) (pre post : list questionRow)
  (row : questionRow) (msg : string) :
  questionsSheet ss = Some (pre ++ row :: post) ->
  questions (processQuestionRow initialScan row) = [] ->
  skipped (processQuestionRow initialScan row) = 1 ->
  errs (processQuestionRow initialScan row) = [msg] ->
  Forall textSectionRow (pre ++ post) ->
  let others := scanQuestionRows (pre ++ post) initialScan in
  exists fields sorted stats,
    readRespondentDetails (respondentDetailsSheet (ensureSheetsExist ss))
    = Normal fields
    /\ sortQuestions localeCompare (questions others) = Normal sorted
    /\ handleGenerateForm localeCompare dryRun ss
       = (if dryRun then DryRunCompleted stats
          else FormCreated (buildForm fields sorted) stats)
    /\ questionsCount stats = List.length (questions others)
    /\ skippedCount stats = S (skipped others)
    /\ errors stats
       = errs (scanQuestionRows pre initialScan)
         ++ msg :: errs (scanQuestionRows post initialScan)
    /\ errs others
       = errs (scanQuestionRows pre initialScan)
         ++ errs (scanQuestionRows post initialScan).
Proof.
  intros Hsheet Hq Hs He Htext others.
  destruct (scanQuestionRows_split pre post row) as [Q [S E]].
  destruct (scanQuestionRows_join pre post) as [Q' [S' E']].
  cbv zeta in Q, S, E, Q', S', E'.
  rewrite Hq in Q. rewrite Hs in S. rewrite He in E. simpl in Q, E.
  assert (Hsame : questions (scanQuestionRows (pre ++ row :: post)
                               initialScan) = questions others)
    by (unfold others; now rewrite Q, Q').
  assert (Hne : pre ++ row :: post <> []) by (now destruct pre).
  destruct (readQuestionsWithValidation_returns localeCompare
              (pre ++ row :: post) Hne) as [sorted [Hsort Hread]].
  { rewrite Hsame. now apply scanQuestionRows_text. }
  destruct (readRespondentDetails_returns
              (respondentDetailsSheet (ensureSheetsExist ss)))
    as [fields Hfields].
  rewrite Hsame in Hsort.
  match type of Hread with
  | _ = Normal (_, ?st) => exists fields, sorted, st
  end.
  split; [ exact Hfields |].
  split; [ exact Hsort |].
  split; [| split; [| split; [| split ]]].
  - rewrite <- (ensureSheetsExist_questions ss _ Hsheet) in Hread.
    rewrite (handleGenerateForm_eval localeCompare dryRun ss _ _ _
               Hfields Hread).
    cbn [skippedCount]. rewrite S.
    assert (Hz : (skipped (scanQuestionRows pre initialScan) + 1
                  + skipped (scanQuestionRows post initialScan) =? 0)%nat
                 = false) by (apply Nat.eqb_neq; lia).
    rewrite Hz, andb_false_r. reflexivity.
  - cbn [questionsCount].
    apply Permutation_length, Permutation_sym, (sort_perm _ _ _ Hsort).
  - cbn [skippedCount]. rewrite S. unfold others. rewrite S'. lia.
  - cbn [errors]. exact E.
  - exact E'.
Qed.


Lemma choice_type_check (type : string) :
  In type ["MCQ"; "CHECKBOX"; "DROPDOWN"] -> isChoiceType type = true.
Proof.
  simpl. intros [<- | [<- | [<- | []]]]; reflexivity.
Qed.


(** ** The sections counted *)

Lemma processQuestionRow_sections (st : scanState) (row : questionRow) :
  sections (processQuestionRow st row)
  = if negb (isBlank (qQuestionText row))
       && nonBlankSection (rowSection row)
    then set_add JS.value_eq_dec (rowSection row) (sections st)
    else sections st.
Proof.
  unfold processQuestionRow.
  destruct (isBlank (qQuestionText row)); [ reflexivity |].
  cbn [negb andb makeQuestion Question.section].
  destruct (_ && _); [ reflexivity |].
  destruct (isInvalidType _); reflexivity.
Qed.

Lemma scanQuestionRows_sections (rows : list questionRow) (st : scanState) :
  NoDup (sections st) ->
  NoDup (sections (scanQuestionRows rows st))
  /\ forall v, In v (sections (scanQuestionRows rows st))
               <-> In v (sections st) \/ In v (trackedSections rows).
Proof.
  revert st. induction rows as [| row rows IH]; intros st Hst.
  - simpl. split; [ exact Hst | intros v; tauto ].
  - change (scanQuestionRows (row :: rows) st)
      with (scanQuestionRows rows (processQuestionRow st row)).
    pose proof (processQuestionRow_sections st row) as Hrow.
    unfold trackedSections. cbn [filter].
    destruct (negb (isBlank (qQuestionText row))); cbn [andb map filter] in *.
    + destruct (nonBlankSection (rowSection row)).
      * destruct (IH (processQuestionRow st row)) as [Hnd Hin].
        { rewrite Hrow. now apply set_add_nodup. }
        split; [ exact Hnd |]. intros v. rewrite Hin, Hrow, set_add_iff.
        unfold trackedSections. cbn [In]. intuition congruence.
      * destruct (IH (processQuestionRow st row)) as [Hnd Hin].
        { now rewrite Hrow. }
        split; [ exact Hnd |]. intros v. rewrite Hin, Hrow.
        unfold trackedSections. tauto.
    + destruct (IH (processQuestionRow st row)) as [Hnd Hin].
      { now rewrite Hrow. }
      split; [ exact Hnd |]. intros v. rewrite Hin, Hrow.
      unfold trackedSections. tauto.
Qed.

Lemma scanQuestionRows_sectionsCount (rows : list questionRow) :
  List.length (sections (scanQuestionRows rows initialScan))
  = List.length (sectionsOfRows rows).
Proof.
  destruct (scanQuestionRows_sections rows initialScan) as [Hnd Hin];
    [ constructor |].
  apply Permutation_length, NoDup_Permutation;
    [ exact Hnd | apply NoDup_nodup |].
  intros v. rewrite Hin. unfold sectionsOfRows. rewrite nodup_In.
  fold (trackedSections rows). simpl. tauto.
Qed.

(** C1, as the code has it.  [sectionsCount] is the number of distinct
    non-blank section values among all rows that have a question text, the
    rejected rows included. *)
Theorem sectionsCount_all_rows (localeCompare : string -> string -> Z)
  (rows : list questionRow) :
  Forall textSectionRow rows ->
  exists qs stats,
    readQuestionsWithValidation localeCompare (Some rows)
    = Normal (qs, stats)
    /\ sectionsCount stats = List.length (sectionsOfRows rows).
Proof.
  intros Htext. destruct rows as [| row rows].
  - eexists _, _. split; reflexivity.
  - destruct (readQuestionsWithValidation_returns localeCompare
                (row :: rows)) as [sorted [_ Hread]];
      [ discriminate | now apply scanQuestionRows_text |].
    eexists _, _. split; [ exact Hread |].
    apply scanQuestionRows_sectionsCount.
Qed.

(** ** Section page breaks *)

Lemma pageBreakTitles_app (a b : list instruction) :
  pageBreakTitles (a ++ b) = pageBreakTitles a ++ pageBreakTitles b.
Proof. apply flat_map_app. Qed.

Lemma pageBreakTitles_questionItem (q : Question.t) :
  pageBreakTitles (questionItem q) = [].
Proof.
  unfold questionItem.
  repeat match goal with
         | |- context [if ?c then _ else _] => destruct c; try reflexivity
         end.
Qed.

Lemma addQuestions_titles (current : option value) (qs : list Question.t) :
  pageBreakTitles (addQuestions current qs)
  = sectionRuns current (filter nonBlankSection (map Question.section qs)).
Proof.
  revert current. induction qs as [| q rest IH]; intros current;
    [ reflexivity |].
  cbn [addQuestions map filter]. unfold sectionChanged.
  destruct (nonBlankSection (Question.section q)); cbn [andb].
  - destruct current as [c |]; cbn [sectionRuns].
    + destruct (JS.strictEq (Question.section q) c); cbn [negb].
      * now rewrite pageBreakTitles_app, pageBreakTitles_questionItem, IH.
      * change (pageBreakTitles (sectionBreak ?s :: ?l))
          with (s :: pageBreakTitles l).
        now rewrite pageBreakTitles_app, pageBreakTitles_questionItem, IH.
    + change (pageBreakTitles (sectionBreak ?s :: ?l))
        with (s :: pageBreakTitles l).
      now rewrite pageBreakTitles_app, pageBreakTitles_questionItem, IH.
  - now rewrite pageBreakTitles_app, pageBreakTitles_questionItem, IH.
Qed.

(** C5.  In the walk over the questions a page break titled with the
    section, with help text ['Section: ' + section], is added exactly when
    the section is non-blank and differs from the section of the last page
    break added (none at first), which then becomes the current one;
    otherwise only the item is added and the current section stays.  The
    page breaks of the walk are therefore the runs of the non-blank sections,
    and sections A, A, B give the two page breaks A and B. *)
Theorem section_page_breaks :
  (forall current q,
      sectionChanged current q = true
      <-> nonBlankSection (Question.section q) = true
          /\ current <> Some (Question.section q))
  /\ (forall current q rest,
         sectionChanged current q = true ->
         addQuestions current (q :: rest)
         = PageBreak (Question.section q)
                     ("Section: " ++ JS.toString (Question.section q))
           :: questionItem q
              ++ addQuestions (Some (Question.section q)) rest)
  /\ (forall current q rest,
         sectionChanged current q = false ->
         addQuestions current (q :: rest)
         = questionItem q ++ addQuestions current rest)
  /\ (forall qs,
         pageBreakTitles (buildForm [] qs)
         = sectionRuns None
             (filter nonBlankSection (map Question.section qs)))
  /\ (forall a1 a2 b,
         Question.section a1 = VString "A" ->
         Question.section a2 = VString "A" ->
         Question.section b = VString "B" ->
         pageBreakTitles (buildForm [] [a1; a2; b])
         = [VString "A"; VString "B"]).
Proof.
  assert (Htitles : forall qs,
             pageBreakTitles (buildForm [] qs)
             = sectionRuns None
                 (filter nonBlankSection (map Question.section qs)))
    by (intros qs; apply addQuestions_titles).
  split; [| split; [| split; [| split ]]].
  - intros current q. unfold sectionChanged.
    destruct (nonBlankSection (Question.section q)); cbn [andb].
    + destruct current as [c |].
      * rewrite negb_true_iff, strictEq_false.
        split; [ intros H; split; [ reflexivity | congruence ]
               | intros [_ H] E; apply H; congruence ].
      * split; [ intros _; split; [ reflexivity | discriminate ]
               | reflexivity ].
    + split; [ discriminate | intros [H _]; discriminate ].
  - intros current q rest H. cbn [addQuestions]. now rewrite H.
  - intros current q rest H. cbn [addQuestions]. now rewrite H.
  - exact Htitles.
  - intros a1 a2 b H1 H2 Hb. rewrite Htitles. cbn [map].
    rewrite H1, H2, Hb. reflexivity.
Qed.

(** ** The respondent block *)

Lemma respondentItem_known (field : Field.t) :
  respondentItem field
  = if knownFieldType field then [fieldItem field] else [].
Proof.
  unfold respondentItem, knownFieldType, fieldItem.
  destruct (String.eqb_spec (Field.type field) "TEXT") as [E |];
    [ rewrite E; reflexivity |].
  destruct (String.eqb_spec (Field.type field) "PARAGRAPH") as [E |];
    [ rewrite E; reflexivity |].
  destruct (String.eqb (Field.type field) "DROPDOWN"); reflexivity.
Qed.

Lemma respondentItems_known (fields : list Field.t) :
  flat_map respondentItem fields
  = map fieldItem (filter knownFieldType fields).
Proof.
  induction fields as [| f rest IH]; [ reflexivity |].
  cbn [flat_map filter]. rewrite respondentItem_known, IH.
  now destruct (knownFieldType f).
Qed.

Lemma buildForm_respondents (fields : list Field.t) (qs : list Question.t) :
  fields <> [] ->
  buildForm fields qs
  = respondentInformation
    :: map fieldItem (filter knownFieldType fields)
       ++ surveyQuestions :: addQuestions None qs.
Proof.
  intros Hne. unfold buildForm.
  destruct fields as [| f rest]; [ contradiction |].
  cbn [List.length Nat.ltb Nat.leb]. rewrite respondentItems_known.
  cbn [app]. now rewrite <- app_assoc.
Qed.

Lemma readRespondentDetails_sorted (rows : list respondentRow)
  (fields : list Field.t) :
  readRespondentDetails (Some rows) = Normal fields ->
  Permutation (flat_map readRespondentRow rows) fields
  /\ StronglySorted fieldOrder fields.
Proof.
  cbn [readRespondentDetails]. intros H. split.
  - apply (sort_perm _ _ _ H).
  - apply (sort_sorted compareFields (fun _ => True) fieldOrder)
      with (l := flat_map readRespondentRow rows); try exact H.
    + unfold compareFields, fieldOrder. intros a b v _ _ [= <-] Hv.
      apply negative_spec in Hv. lra.
    + unfold compareFields, fieldOrder. intros a b v _ _ [= <-] Hv.
      apply negative_false in Hv. lra.
    + unfold fieldOrder. intros a b c _ _ _ Hab Hbc. lra.
    + apply Forall_forall. intros; exact I.
Qed.


(** ** The single text question *)

(** C7.  With no respondent field and the one question row ['Age?'] of
    type TEXT, required, with no section, [compile] creates the form that
    consists of the single required text item ['Age?'] with no choices: no
    page break is added. *)
Theorem single_text_question (localeCompare : string -> string -> Z)
  (respondents : list respondentRow) (row : questionRow) :
  flat_map readRespondentRow respondents = [] ->
  qQuestionText row = VString "Age?" ->
  rowType row = "TEXT" ->
  parseRequired (qRequired row) = true ->
  nonBlankSection (rowSection row) = false ->
  exists stats,
    compile localeCompare (sheetsOf respondents [row])
    = FormCreated [Item TextItem "Age?" true []] stats.
Proof.
  intros Hresp Htext Htype Hreq Hsec.
  assert (Hty : Question.type (makeQuestion row) = "TEXT") by exact Htype.
  assert (Hs : Question.section (makeQuestion row) = rowSection row)
    by reflexivity.
  assert (Htx : Question.questionText (makeQuestion row) = "Age?")
    by (cbn [makeQuestion Question.questionText]; now rewrite Htext).
  assert (Hrq : Question.required (makeQuestion row) = true) by exact Hreq.
  assert (Hrow : processQuestionRow initialScan row
                 = {| questions := [makeQuestion row];
                      sections := empty_set value;
                      skipped := 0; errs := [] |}).
  { unfold processQuestionRow. rewrite Htext.
    change (isBlank (VString "Age?")) with false. cbv iota zeta.
    rewrite Hty, Hs, Hsec. reflexivity. }
  assert (Hform : buildForm [] [makeQuestion row]
                  = [Item TextItem "Age?" true []]).
  { unfold buildForm. cbn [List.length Nat.ltb Nat.leb app addQuestions].
    unfold sectionChanged, questionItem.
    rewrite Hs, Hsec, Hty, Htx, Hrq. reflexivity. }
  unfold compile, handleGenerateForm, generateForm, sheetsOf.
  cbn [ensureSheetsExist respondentDetailsSheet questionsSheet
       readRespondentDetails].
  rewrite Hresp. cbn [sort bind readQuestionsWithValidation].
  unfold scanQuestionRows. cbn [fold_left]. rewrite Hrow.
  cbn [questions sortQuestions sort insert bind fst snd List.length
       Nat.eqb andb].
  rewrite Hform. eexists. reflexivity.
Qed.

(** ** Failure of the request *)

(** For rows whose [Section] cells hold text the request fails exactly
    when no question was accepted and no row was skipped. *)
Lemma handleGenerateForm_ok_text (localeCompare : string -> string -> Z)
  (dryRun : bool) (ss : spreadsheet) (rows : list questionRow) :
  questionsSheet (ensureSheetsExist ss) = Some rows ->
  Forall textSectionRow rows ->
  ok (handleGenerateForm localeCompare dryRun ss) = false
  <-> questions (scanQuestionRows rows initialScan) = []
      /\ skipped (scanQuestionRows rows initialScan) = 0.
Proof.
  intros Hsheet Htext.
  destruct (readRespondentDetails_returns
              (respondentDetailsSheet (ensureSheetsExist ss)))
    as [fields Hfields].
  destruct rows as [| row rows].
  - erewrite handleGenerateForm_eval;
      [| exact Hfields | rewrite Hsheet; reflexivity ].
    simpl. tauto.
  - destruct (readQuestionsWithValidation_returns localeCompare
                (row :: rows)) as [sorted [Hsort Hread]];
      [ discriminate | now apply scanQuestionRows_text |].
    rewrite <- Hsheet in Hread.
    rewrite (handleGenerateForm_eval localeCompare dryRun ss fields _ _
               Hfields Hread).
    cbn [skippedCount].
    pose proof (Permutation_length (sort_perm _ _ _ Hsort)) as Hlen.
    destruct (questions (scanQuestionRows (row :: rows) initialScan))
      as [| q qs'];
      destruct sorted as [| s sorted']; try discriminate Hlen.
    + destruct (skipped (scanQuestionRows (row :: rows) initialScan));
        cbn [List.length Nat.eqb andb ok].
      * tauto.
      * destruct dryRun; cbn [ok];
          split; [ discriminate | intros [_ H]; discriminate
                 | discriminate | intros [_ H]; discriminate ].
    + cbn [List.length Nat.eqb andb].
      destruct dryRun; cbn [ok];
        split; [ discriminate | intros [H _]; discriminate
               | discriminate | intros [H _]; discriminate ].
Qed.

(** C8, where the code departs from it.  Two valid questions whose
    [Section] cells are the numbers 1 and 2 are both accepted and no row is
    skipped, yet the comparison function of the sort throws and the request,
    dry run or not, ends in the error response with [ok = false]. *)
Theorem numbered_sections_fail (localeCompare : string -> string -> Z)
  (dryRun : bool) :
  List.length (questions (scanQuestionRows numberedRows initialScan)) = 2
  /\ skipped (scanQuestionRows numberedRows initialScan) = 0
  /\ handleGenerateForm localeCompare dryRun (sheetsOf [] numberedRows)
     = ErrorResponse
         ("Failed to generate form: "
          ++ "TypeError: a.section.localeCompare is not a function")
  /\ ok (handleGenerateForm localeCompare dryRun (sheetsOf [] numberedRows))
     = false.
Proof. repeat split. Qed.

(** ** Respondent rows of unknown type *)

Lemma readRespondentRow_unknown (row : respondentRow) :
  isBlank (dFieldName row) = false ->
  ~ In (respondentRowType row) ["TEXT"; "PARAGRAPH"; "DROPDOWN"] ->
  readRespondentRow row = [makeField row]
  /\ knownFieldType (makeField row) = false.
Proof.
  unfold respondentRowType, readRespondentRow, knownFieldType.
  intros Hb Ht. rewrite Hb.
  destruct (String.eqb_spec (Field.type (makeField row)) "TEXT") as [E |];
    [ exfalso; apply Ht; rewrite E; simpl; auto |].
  destruct (String.eqb_spec (Field.type (makeField row)) "PARAGRAPH")
    as [E |]; [ exfalso; apply Ht; rewrite E; simpl; auto |].
  destruct (String.eqb_spec (Field.type (makeField row)) "DROPDOWN")
    as [E |]; [ exfalso; apply Ht; rewrite E; simpl; auto |].
  split; reflexivity.
Qed.

Lemma filter_none {A : Type} (p : A -> bool) (l : list A) :
  Forall (fun x => p x = false) l -> filter p l = [].
Proof.
  induction 1 as [| x l Hx _ IH]; simpl; [ reflexivity |].
  now rewrite Hx.
Qed.

(** The statistics of the response are those of the [Questions] sheet. *)
Lemma responseStats_questions_only (localeCompare : string -> string -> Z)
  (dryRun : bool) (ss ss' : spreadsheet) :
  questionsSheet ss = questionsSheet ss' ->
  responseStats (handleGenerateForm localeCompare dryRun ss)
  = responseStats (handleGenerateForm localeCompare dryRun ss').
Proof.
  intros H. unfold handleGenerateForm, generateForm.
  destruct (readRespondentDetails_returns
              (respondentDetailsSheet (ensureSheetsExist ss))) as [f ->].
  destruct (readRespondentDetails_returns
              (respondentDetailsSheet (ensureSheetsExist ss'))) as [f' ->].
  cbn [bind ensureSheetsExist questionsSheet]. rewrite H.
  destruct (readQuestionsWithValidation localeCompare _) as [[qs st] | e];
    cbn [bind fst snd]; [| reflexivity ].
  destruct (_ && _); [ reflexivity |].
  destruct dryRun; reflexivity.
Qed.


(** ** Where the specification departs from the code *)

(** C1 as stated fails: a rejected row's section is counted.  The one row
    [languagesRow] (CHECKBOX, no options, section General) is rejected, so no
    question is accepted, yet [sectionsCount] is 1. *)
Lemma sectionsCount_accepted_only_fails :
  ~ (forall localeCompare sheet qs stats,
        readQuestionsWithValidation localeCompare sheet = Normal (qs, stats) ->
        sectionsCount stats = List.length (sectionsOfQuestions qs)).
Proof.
  intros H.
  pose proof (H codeUnitCompare (Some [languagesRow]) _ _ eq_refl) as E.
  vm_compute in E. discriminate.
Qed.



(** ** The theorems at sample sheets *)

Lemma sampleQuestions_text : Forall textSection sampleQuestions.
Proof. repeat constructor. Qed.

Lemma sectionsCount_all_rows_witness :
  exists qs stats,
    readQuestionsWithValidation codeUnitCompare
      (Some [ageRow; languagesRow; howManyRow]) = Normal (qs, stats)
    /\ sectionsCount stats = 1.
Proof.
  destruct (sectionsCount_all_rows codeUnitCompare
              [ageRow; languagesRow; howManyRow])
    as (qs & stats & Hread & Hcount).
  - repeat constructor.
  - exists qs, stats. split; [ exact Hread | exact Hcount ].
Defined.



Lemma sampleQuestions_separated :
  separates controlBlindCompare (map Question.section sampleQuestions).
Proof.
  intros s t Hs Ht. cbn in Hs, Ht.
  destruct Hs as [<- | [<- | [<- | []]]];
    destruct Ht as [<- | [<- | [<- | []]]];
    intros E; try reflexivity; discriminate E.
Qed.



Lemma single_text_question_witness :
  exists stats,
    compile codeUnitCompare (sheetsOf [] [ageRow])
    = FormCreated [Item TextItem "Age?" true []] stats.
Proof.
  apply (single_text_question codeUnitCompare [] ageRow); reflexivity.
Defined.


(** * Further properties of the code *)

(** ** What the row loop gathers *)

Lemma rowAccepted_checks (row : questionRow) :
  rowAccepted row = true ->
  isBlank (qQuestionText row) = false
  /\ isChoiceType (rowType row)
     && (List.length (collectOptions (questionOptionCells row)) =? 0)%nat
     = false
  /\ isInvalidType (rowType row) = false.
Proof.
  unfold rowAccepted. intros H.
  apply andb_prop in H. destruct H as [H H3].
  apply andb_prop in H. destruct H as [H1 H2].
  apply negb_true_iff in H1, H2, H3. auto.
Qed.

Lemma makeQuestion_options_check (row : questionRow) :
  isChoiceType (Question.type (makeQuestion row))
  && (List.length (Question.options (makeQuestion row)) =? 0)%nat
  = isChoiceType (rowType row)
    && (List.length (collectOptions (questionOptionCells row)) =? 0)%nat.
Proof.
  cbn [makeQuestion Question.type Question.options].
  now destruct (isChoiceType (rowType row)).
Qed.

Lemma processQuestionRow_outcome (row : questionRow) :
  questions (processQuestionRow initialScan row)
  = (if rowAccepted row then [makeQuestion row] else [])
  /\ skipped (processQuestionRow initialScan row)
     = (if rowAccepted row then 0 else 1)
  /\ List.length (errs (processQuestionRow initialScan row))
     = (if isBlank (qQuestionText row) || rowAccepted row then 0 else 1).
Proof.
  unfold processQuestionRow, rowAccepted.
  destruct (isBlank (qQuestionText row)); [ repeat split |].
  cbv zeta. rewrite makeQuestion_options_check.
  change (Question.type (makeQuestion row)) with (rowType row).
  destruct (isChoiceType (rowType row) && _); [ repeat split |].
  destruct (isInvalidType (rowType row)); repeat split.
Qed.

Lemma scanQuestionRows_cons (row : questionRow) (rows : list questionRow) :
  let part rs := scanQuestionRows rs initialScan in
  questions (part (row :: rows))
  = questions (processQuestionRow initialScan row) ++ questions (part rows)
  /\ skipped (part (row :: rows))
     = skipped (processQuestionRow initialScan row) + skipped (part rows)
  /\ errs (part (row :: rows))
     = errs (processQuestionRow initialScan row) ++ errs (part rows).
Proof.
  destruct (scanQuestionRows_split [] rows row) as [Q [S E]].
  cbv zeta in *. repeat split; assumption.
Qed.

(** The loop in closed form: the questions of the accepted rows in row
    order, one skip per other row, one message per rejected row that has a
    question text. *)
Lemma scanQuestionRows_closed (rows : list questionRow) :
  questions (scanQuestionRows rows initialScan)
  = map makeQuestion (filter rowAccepted rows)
  /\ skipped (scanQuestionRows rows initialScan)
     = List.length (filter (fun row => negb (rowAccepted row)) rows)
  /\ List.length (errs (scanQuestionRows rows initialScan))
     = List.length
         (filter (fun row => negb (isBlank (qQuestionText row)
                                   || rowAccepted row)) rows).
Proof.
  induction rows as [| row rows [IQ [IS IE]]]; [ repeat split |].
  destruct (scanQuestionRows_cons row rows) as [Q [S E]].
  destruct (processQuestionRow_outcome row) as [Q1 [S1 E1]].
  cbv zeta in Q, S, E.
  rewrite Q, S, E, length_app, Q1, S1, E1, IQ, IS, IE. cbn [filter].
  destruct (rowAccepted row); cbn [negb orb];
    [ rewrite orb_true_r; repeat split |].
  rewrite orb_false_r.
  destruct (isBlank (qQuestionText row)); repeat split.
Qed.

Lemma filter_split_length {A : Type} (p : A -> bool) (l : list A) :
  List.length (filter p l)
  + List.length (filter (fun x => negb (p x)) l) = List.length l.
Proof.
  induction l as [| x l IH]; [ reflexivity |].
  cbn [filter]. destruct (p x); cbn [negb List.length]; lia.
Qed.

Lemma rowAccepted_blank (row : questionRow) :
  isBlank (qQuestionText row) = true -> rowAccepted row = false.
Proof. unfold rowAccepted. now intros ->. Qed.

Lemma rejected_split_length (rows : list questionRow) :
  List.length (filter (fun row => negb (rowAccepted row)) rows)
  = List.length (filter (fun row => isBlank (qQuestionText row)) rows)
    + List.length
        (filter (fun row => negb (isBlank (qQuestionText row)
                                  || rowAccepted row)) rows).
Proof.
  induction rows as [| row rows IH]; [ reflexivity |].
  cbn [filter].
  destruct (isBlank (qQuestionText row)) eqn:B.
  - rewrite (rowAccepted_blank row B). cbn [negb orb List.length]. lia.
  - destruct (rowAccepted row); cbn [negb orb List.length]; lia.
Qed.

(** X1.  Every row is accounted for: for a sheet with at least one row,
    [questionsCount] is the number of questions returned, [questionsCount]
    and [skippedCount] add up to the number of rows, and [skippedCount] is
    the number of rows without a question text plus the number of messages
    in [errors]. *)
Theorem stats_account_for_rows (localeCompare : string -> string -> Z)
  (rows : list questionRow) :
  rows <> [] ->
  Forall textSectionRow rows ->
  exists qs stats,
    readQuestionsWithValidation localeCompare (Some rows)
    = Normal (qs, stats)
    /\ questionsCount stats = List.length qs
    /\ questionsCount stats + skippedCount stats = List.length rows
    /\ skippedCount stats
       = List.length (filter (fun row => isBlank (qQuestionText row)) rows)
         + List.length (errors stats).
Proof.
  intros Hne Htext.
  destruct (readQuestionsWithValidation_returns localeCompare rows Hne)
    as [sorted [Hsort Hread]]; [ now apply scanQuestionRows_text |].
  destruct (scanQuestionRows_closed rows) as [Q [S E]].
  pose proof (Permutation_length (sort_perm _ _ _ Hsort)) as Hlen.
  rewrite Q, length_map in Hlen.
  eexists _, _. split; [ exact Hread |].
  cbn [questionsCount skippedCount errors].
  split; [ reflexivity |]. split.
  - rewrite S, <- Hlen. apply filter_split_length.
  - rewrite S, E. apply rejected_split_length.
Qed.

Lemma collectOptions_length (cells : list value) :
  List.length (collectOptions cells) <= List.length cells.
Proof.
  induction cells as [| c cells IH]; [ reflexivity |].
  cbn [collectOptions]. destruct (_ && _); cbn [List.length]; lia.
Qed.

Lemma collectOptions_nonempty (cells : list value) :
  Forall (fun o => o <> EmptyString) (collectOptions cells).
Proof.
  induction cells as [| c cells IH]; [ constructor |].
  cbn [collectOptions].
  destruct (JS.truthy c); cbn [andb]; [| exact IH ].
  destruct (String.eqb_spec (JS.trim (JS.toString c)) EmptyString);
    cbn [negb]; [ exact IH | now constructor ].
Qed.

Lemma makeQuestion_wellFormed (row : questionRow) :
  rowAccepted row = true -> wellFormedQuestion (makeQuestion row).
Proof.
  intros H. destruct (rowAccepted_checks row H) as [Hb [Hc Hi]].
  unfold wellFormedQuestion.
  cbn [makeQuestion Question.type Question.questionText Question.options].
  split; [| split; [| split; [| split; [| split ]]]].
  - unfold isInvalidType in Hi. apply negb_false_iff in Hi.
    apply existsb_exists in Hi. destruct Hi as [t [Hin Ht]].
    apply String.eqb_eq in Ht. now rewrite Ht.
  - unfold isBlank in Hb. apply orb_false_iff in Hb.
    destruct Hb as [_ Hb]. now apply String.eqb_neq.
  - intros Hchoice. rewrite Hchoice in *. cbn [andb] in Hc.
    apply Nat.eqb_neq in Hc. intros E. now rewrite E in Hc.
  - now intros ->.
  - destruct (isChoiceType (rowType row)); [| cbn; lia ].
    apply (collectOptions_length (questionOptionCells row)).
  - destruct (isChoiceType (rowType row)); [| constructor ].
    apply collectOptions_nonempty.
Qed.

Lemma scanQuestionRows_wellFormed (rows : list questionRow) :
  Forall wellFormedQuestion (questions (scanQuestionRows rows initialScan)).
Proof.
  destruct (scanQuestionRows_closed rows) as [-> _].
  apply Forall_map, Forall_forall. intros row Hrow.
  apply filter_In in Hrow. now apply makeQuestion_wellFormed.
Qed.

(** X2.  Every question the validating reader returns is well formed: its
    type is one of the five valid ones, its text is not blank, it has
    choices exactly when its type is MCQ, CHECKBOX or DROPDOWN, at most five
    of them, and no choice is the empty string. *)
Theorem accepted_questions_well_formed
  (localeCompare : string -> string -> Z)
  (sheet : option (list questionRow)) (qs : list Question.t)
  (stats : validationStats) :
  readQuestionsWithValidation localeCompare sheet = Normal (qs, stats) ->
  Forall wellFormedQuestion qs.
Proof.
  destruct sheet as [[| row rows] |]; cbn [readQuestionsWithValidation];
    try (intros [= <- _]; constructor).
  intros H. bind_inv H. injection H as <- _.
  apply (Permutation_Forall (sort_perm _ _ _ Ha)).
  apply scanQuestionRows_wellFormed.
Qed.

(** ** What the request handler returns *)

Lemma readQuestionsWithValidation_count
  (localeCompare : string -> string -> Z)
  (sheet : option (list questionRow)) (qs : list Question.t)
  (stats : validationStats) :
  readQuestionsWithValidation localeCompare sheet = Normal (qs, stats) ->
  questionsCount stats = List.length qs.
Proof.
  destruct sheet as [[| row rows] |]; cbn [readQuestionsWithValidation];
    try (intros [= <- <-]; reflexivity).
  intros H. bind_inv H. now injection H as <- <-.
Qed.

Lemma handleGenerateForm_created (localeCompare : string -> string -> Z)
  (dryRun : bool) (ss : spreadsheet) (form : list instruction)
  (stats : validationStats) :
  handleGenerateForm localeCompare dryRun ss = FormCreated form stats ->
  dryRun = false
  /\ exists fields qs,
       readRespondentDetails (respondentDetailsSheet (ensureSheetsExist ss))
       = Normal fields
       /\ readQuestionsWithValidation localeCompare
            (questionsSheet (ensureSheetsExist ss)) = Normal (qs, stats)
       /\ form = buildForm fields qs.
Proof.
  unfold handleGenerateForm, generateForm.
  destruct (readRespondentDetails _) as [fields | e]; cbn [bind];
    [| discriminate ].
  destruct (readQuestionsWithValidation _ _) as [[qs st] | e];
    cbn [bind fst snd]; [| discriminate ].
  destruct (_ && _); [ discriminate |].
  destruct dryRun; [ discriminate |].
  intros [= <- <-]. split; [ reflexivity |].
  exists fields, qs. repeat split.
Qed.

Lemma questionItem_valid (q : Question.t) :
  In (Question.type q) validTypes ->
  List.length (filter isItem (questionItem q)) = 1.
Proof.
  unfold questionItem, validTypes.
  intros [E | [E | [E | [E | [E | []]]]]]; rewrite <- E; reflexivity.
Qed.

Lemma addQuestions_items (current : option value) (qs : list Question.t) :
  Forall wellFormedQuestion qs ->
  List.length (filter isItem (addQuestions current qs)) = List.length qs.
Proof.
  intros H. revert current.
  induction H as [| q qs [Hq _] _ IH]; intros current; [ reflexivity |].
  cbn [addQuestions].
  destruct (sectionChanged current q); unfold sectionBreak;
    cbn [filter isItem];
    rewrite filter_app, length_app, (questionItem_valid q Hq), IH;
    reflexivity.
Qed.

Lemma fieldItems_items (fields : list Field.t) :
  filter isItem (map fieldItem fields) = map fieldItem fields.
Proof.
  induction fields as [| f fields IH]; [ reflexivity |].
  cbn [map filter fieldItem isItem]. now rewrite IH.
Qed.

(** X3.  The form that [compile] creates has one item per respondent
    field of a known type and one item per question counted: the number of
    its items is the number of such fields plus [questionsCount]. *)
Theorem created_form_item_count (localeCompare : string -> string -> Z)
  (ss : spreadsheet) (fields : list Field.t) (form : list instruction)
  (stats : validationStats) :
  readRespondentDetails (respondentDetailsSheet (ensureSheetsExist ss))
  = Normal fields ->
  compile localeCompare ss = FormCreated form stats ->
  List.length (filter isItem form)
  = List.length (filter knownFieldType fields) + questionsCount stats.
Proof.
  intros Hfields Hform.
  destruct (handleGenerateForm_created _ _ _ _ _ Hform)
    as [_ (fields' & qs & Hf & Hq & ->)].
  rewrite Hfields in Hf. injection Hf as <-.
  rewrite (readQuestionsWithValidation_count _ _ _ _ Hq).
  pose proof (accepted_questions_well_formed _ _ _ _ Hq) as Hwf.
  unfold buildForm. destruct fields as [| f fields'].
  - cbn [List.length Nat.ltb Nat.leb app filter].
    now apply addQuestions_items.
  - cbn [List.length Nat.ltb Nat.leb].
    rewrite respondentItems_known.
    cbn [app filter isItem respondentInformation].
    rewrite !filter_app, !length_app, fieldItems_items, length_map.
    cbn [filter isItem surveyQuestions List.length app].
    rewrite (addQuestions_items None qs Hwf). lia.
Qed.

(** X5.  When the sheet has rows and every one of them is skipped,
    [compile] does not fail: it creates a form holding the respondent block
    only, and reports no question and as many skips as there are rows. *)
Theorem all_rows_skipped_still_creates
  (localeCompare : string -> string -> Z) (ss : spreadsheet)
  (rows : list questionRow) :
  questionsSheet ss = Some rows ->
  rows <> [] ->
  Forall (fun row => rowAccepted row = false) rows ->
  exists fields stats,
    readRespondentDetails (respondentDetailsSheet (ensureSheetsExist ss))
    = Normal fields
    /\ compile localeCompare ss = FormCreated (buildForm fields []) stats
    /\ filter isItem (buildForm fields [])
       = map fieldItem (filter knownFieldType fields)
    /\ questionsCount stats = 0
    /\ skippedCount stats = List.length rows.
Proof.
  intros Hsheet Hne Hrows.
  destruct (scanQuestionRows_closed rows) as [Q [S _]].
  assert (Hnone : filter rowAccepted rows = [])
    by (now apply filter_none).
  assert (Hall : List.length (filter (fun row => negb (rowAccepted row)) rows)
                 = List.length rows).
  { pose proof (filter_split_length rowAccepted rows) as H.
    rewrite Hnone in H. exact H. }
  rewrite Hnone in Q. cbn [map] in Q.
  destruct (readRespondentDetails_returns
              (respondentDetailsSheet (ensureSheetsExist ss)))
    as [fields Hfields].
  assert (Hread := readQuestionsWithValidation_rows localeCompare rows []
                     Hne).
  rewrite Q in Hread. specialize (Hread eq_refl).
  rewrite <- (ensureSheetsExist_questions ss rows Hsheet) in Hread.
  match type of Hread with
  | _ = Normal (_, ?st) => exists fields, st
  end.
  split; [ exact Hfields |].
  unfold compile.
  rewrite (handleGenerateForm_eval localeCompare false ss _ _ _
             Hfields Hread).
  cbn [skippedCount questionsCount List.length Nat.eqb andb].
  rewrite S, Hall.
  split; [ destruct rows; [ contradiction | reflexivity ] |].
  split; [| split; reflexivity ].
  unfold buildForm. destruct fields as [| f fields']; [ reflexivity |].
  cbn [List.length Nat.ltb Nat.leb]. rewrite respondentItems_known.
  cbn [app filter isItem respondentInformation addQuestions].
  rewrite app_nil_r, filter_app, fieldItems_items.
  cbn [filter isItem surveyQuestions]. apply app_nil_r.
Qed.

Lemma filter_idem {A : Type} (p : A -> bool) (l : list A) :
  filter p (filter p l) = filter p l.
Proof.
  induction l as [| x l IH]; [ reflexivity |].
  cbn [filter]. destruct (p x) eqn:E; [| exact IH ].
  cbn [filter]. now rewrite E, IH.
Qed.

Lemma filter_excluded {A : Type} (p q : A -> bool) (l : list A) :
  (forall x, p x = true -> q x = false) ->
  filter q (filter p l) = [].
Proof.
  intros H. apply filter_none, Forall_forall.
  intros x Hx. apply filter_In in Hx. now apply H.
Qed.

(** X6.  Removing the skipped rows from the sheet changes nothing in the
    form: if [compile] creates a form from a sheet with an accepted row, it
    creates the same form from the accepted rows alone, then with no skip
    and no message reported. *)
Theorem cleaned_sheet_same_form (localeCompare : string -> string -> Z)
  (ss : spreadsheet) (rows : list questionRow) (form : list instruction)
  (stats : validationStats) :
  questionsSheet ss = Some rows ->
  filter rowAccepted rows <> [] ->
  compile localeCompare ss = FormCreated form stats ->
  exists stats',
    compile localeCompare
      {| respondentDetailsSheet := respondentDetailsSheet ss;
         questionsSheet := Some (filter rowAccepted rows) |}
    = FormCreated form stats'
    /\ questionsCount stats' = questionsCount stats
    /\ skippedCount stats' = 0
    /\ errors stats' = [].
Proof.
  intros Hsheet Hacc Hform.
  destruct (handleGenerateForm_created _ _ _ _ _ Hform)
    as [_ (fields & qs & Hf & Hq & ->)].
  rewrite (ensureSheetsExist_questions ss rows Hsheet) in Hq.
  assert (Hne : rows <> []) by (intros E; now rewrite E in Hacc).
  destruct rows as [| row rows']; [ contradiction |].
  cbn [readQuestionsWithValidation] in Hq. bind_inv Hq.
  injection Hq as -> <-. rename Ha into Hsort.
  set (rows := row :: rows') in *.
  destruct (scanQuestionRows_closed rows) as [Q _].
  destruct (scanQuestionRows_closed (filter rowAccepted rows))
    as [Q' [S' E']].
  rewrite filter_idem in Q'.
  rewrite filter_excluded in S', E';
    [| intros x Hx; now rewrite Hx, orb_true_r
     | intros x Hx; now rewrite Hx ].
  apply length_zero_iff_nil in E'.
  rewrite Q in Hsort. rewrite <- Q' in Hsort.
  pose proof (readQuestionsWithValidation_rows localeCompare
                (filter rowAccepted rows) qs Hacc Hsort) as Hread.
  rewrite S', E' in Hread.
  set (ss' := {| respondentDetailsSheet := respondentDetailsSheet ss;
                 questionsSheet := Some (filter rowAccepted rows) |}).
  assert (Hf' : readRespondentDetails
                  (respondentDetailsSheet (ensureSheetsExist ss'))
                = Normal fields) by exact Hf.
  assert (Hread' : readQuestionsWithValidation localeCompare
                     (questionsSheet (ensureSheetsExist ss'))
                   = Normal (qs, _)) by exact Hread.
  eexists. split.
  - unfold compile.
    rewrite (handleGenerateForm_eval localeCompare false ss' _ _ _
               Hf' Hread').
    assert (Hlen : List.length qs <> 0).
    { rewrite <- (Permutation_length (sort_perm _ _ _ Hsort)), Q',
        length_map.
      intros E. apply length_zero_iff_nil in E. contradiction. }
    apply Nat.eqb_neq in Hlen. rewrite Hlen. reflexivity.
  - repeat split.
Qed.

(** ** parseInt reads back what toString writes *)

Ltac eval_digit :=
  match goal with
  | |- context [digitValue 10 ?c] =>
      let v := eval vm_compute in (digitValue 10 c) in
      change (digitValue 10 c) with v
  end.

Ltac of_lu_rev_digit d :=
  match goal with
  | |- context [Decimal.rev (?c d)] =>
      change (Decimal.rev (c d)) with (Decimal.revapp d (c Decimal.Nil));
      rewrite (DecimalPos.Unsigned.of_lu_revapp d (c Decimal.Nil))
  end.

Lemma parseDigits_uint (d : Decimal.uint) (a : Z) :
  parseDigits 10 (NilEmpty.string_of_uint d) (Some a)
  = Some (a * Z.of_N (10 ^ DecimalPos.Unsigned.usize d)
          + Z.of_N (DecimalPos.Unsigned.of_lu (Decimal.rev d)))%Z.
Proof.
  revert a. induction d; intros a;
    [ cbn; f_equal; lia | .. ];
    cbn [NilEmpty.string_of_uint parseDigits]; eval_digit;
    cbv iota beta; rewrite IHd; f_equal; of_lu_rev_digit d;
    cbn [DecimalPos.Unsigned.usize DecimalPos.Unsigned.of_lu];
    rewrite N.pow_succ_r', N.mul_0_r, ?N.add_0_r,
      ?N2Z.inj_add, ?N2Z.inj_mul;
    cbn [Z.of_N]; ring.
Qed.

Lemma parseInt_uint (d : Decimal.uint) :
  d <> Decimal.Nil ->
  parseInt (NilEmpty.string_of_uint d)
  = Some (toDouble (Z.of_N (Pos.of_uint d)))
  /\ parseInt (String "-" (NilEmpty.string_of_uint d))
     = Some (toDouble (- Z.of_N (Pos.of_uint d))).
Proof.
  intros Hd. rewrite DecimalPos.Unsigned.of_uint_alt.
  assert (Hdigits : parseDigits 10 (NilEmpty.string_of_uint d) None
                    = Some (Z.of_N (DecimalPos.Unsigned.of_lu
                                      (Decimal.rev d)))).
  { destruct d; [ contradiction | .. ];
      cbn [NilEmpty.string_of_uint parseDigits]; eval_digit;
      cbv iota beta; rewrite parseDigits_uint; f_equal; of_lu_rev_digit d;
      cbn [DecimalPos.Unsigned.of_lu];
      rewrite N.mul_0_r, ?N.add_0_r, ?N2Z.inj_add, ?N2Z.inj_mul;
      cbn [Z.of_N]; ring. }
  assert (Hplain : JS.trimStart (NilEmpty.string_of_uint d)
                   = NilEmpty.string_of_uint d
                   /\ stripSign (NilEmpty.string_of_uint d)
                      = (1%Z, NilEmpty.string_of_uint d)
                   /\ stripHexPrefix (NilEmpty.string_of_uint d)
                      = (10%Z, NilEmpty.string_of_uint d)).
  { destruct d as [| d | d | d | d | d | d | d | d | d | d];
      [ contradiction | .. ];
      (split; [ reflexivity | split; [ reflexivity |] ]);
      destruct d; reflexivity. }
  destruct Hplain as [Ht [Hs Hx]]. split.
  - unfold parseInt. rewrite Ht, Hs, Hx, Hdigits. cbn [option_map].
    do 2 f_equal; lia.
  - unfold parseInt. cbn [JS.trimStart]. cbv beta.
    change (JS.isWhiteSpace "-") with false. cbv iota.
    cbn [stripSign]. change (Ascii.eqb "-" "-") with true. cbv iota.
    rewrite Hx, Hdigits. cbn [option_map]. do 2 f_equal; lia.
Qed.

Lemma parseInt_toString (n : Z) :
  parseInt (JS.toString (VNumber n)) = Some (toDouble n).
Proof.
  cbn [JS.toString]. destruct n as [| p | p]; cbn [Z.to_int].
  - reflexivity.
  - unfold NilZero.string_of_int, NilZero.string_of_uint.
    pose proof (DecimalPos.Unsigned.to_uint_nonnil p) as Hp.
    destruct (parseInt_uint (Pos.to_uint p) Hp) as [H _].
    rewrite DecimalPos.Unsigned.of_to in H.
    destruct (Pos.to_uint p); [ contradiction | .. ]; exact H.
  - unfold NilZero.string_of_int, NilZero.string_of_uint.
    pose proof (DecimalPos.Unsigned.to_uint_nonnil p) as Hp.
    destruct (parseInt_uint (Pos.to_uint p) Hp) as [_ H].
    rewrite DecimalPos.Unsigned.of_to in H.
    destruct (Pos.to_uint p); [ contradiction | .. ]; exact H.
Qed.

(** Integers up to 2^53 are Numbers. *)
Lemma toDouble_safe (z : Z) : (Z.abs z <= 2 ^ 53)%Z -> toDouble z = z.
Proof.
  intros Hz. unfold toDouble.
  destruct (Z.abs z <? 2 ^ 53)%Z eqn:E; [ reflexivity |].
  apply Z.ltb_ge in E.
  assert (Hcase : z = (2 ^ 53)%Z \/ z = (- 2 ^ 53)%Z) by lia.
  destruct Hcase as [-> | ->]; reflexivity.
Qed.

Lemma toString_number_nonempty (n : Z) :
  JS.toString (VNumber n) <> EmptyString.
Proof.
  intros E. pose proof (parseInt_toString n) as H. rewrite E in H.
  discriminate.
Qed.

(** ** The FormMeta sheet *)

Lemma toString_nonempty (v : value) :
  v <> VString EmptyString -> JS.toString v <> EmptyString.
Proof.
  destruct v as [| s | n | [|]]; cbn [JS.toString]; intros H;
    try discriminate.
  - congruence.
  - apply toString_number_nonempty.
Qed.

Lemma metaRowSet_nonempty (row : metaRow) :
  metaRowSet row = true -> JS.toString (mValue row) <> EmptyString.
Proof.
  unfold metaRowSet. intros H. apply andb_prop in H. destruct H as [_ H].
  apply negb_true_iff, strictEq_false in H. now apply toString_nonempty.
Qed.

Lemma readMetaRow_never_blank (meta : Meta.t) (row : metaRow) :
  Meta.formTitle meta <> EmptyString
  /\ Meta.formDescription meta <> EmptyString
  /\ Meta.version meta <> EmptyString ->
  Meta.formTitle (readMetaRow meta row) <> EmptyString
  /\ Meta.formDescription (readMetaRow meta row) <> EmptyString
  /\ Meta.version (readMetaRow meta row) <> EmptyString.
Proof.
  intros [Ht [Hd Hv]]. unfold readMetaRow.
  destruct (metaRowSet row) eqn:Hset; [| auto ].
  pose proof (metaRowSet_nonempty row Hset) as Hne.
  destruct (JS.strictEq (mKey row) (VString "FormTitle")); [ cbn; auto |].
  destruct (JS.strictEq (mKey row) (VString "FormDescription"));
    [ cbn; auto |].
  destruct (JS.strictEq (mKey row) (VString "Version")); cbn; auto.
Qed.

(** X7.  Whatever the sheet holds, the title, the description and the
    version that [readMeta] returns are never the empty string. *)
Theorem readMeta_never_blank (rows : list metaRow) :
  exists meta,
    readMeta (Some rows) = Normal meta
    /\ Meta.formTitle meta <> EmptyString
    /\ Meta.formDescription meta <> EmptyString
    /\ Meta.version meta <> EmptyString.
Proof.
  eexists. split; [ reflexivity |].
  assert (H : Meta.formTitle defaultMeta <> EmptyString
              /\ Meta.formDescription defaultMeta <> EmptyString
              /\ Meta.version defaultMeta <> EmptyString)
    by (repeat split; discriminate).
  revert H. generalize defaultMeta.
  induction rows as [| row rows IH]; intros meta H; [ exact H |].
  cbn [fold_left]. apply IH. now apply readMetaRow_never_blank.
Qed.

Lemma last_cons_default {A : Type} (a d : A) (l : list A) :
  last (a :: l) d = last l a.
Proof.
  revert a d. induction l as [| b l IH]; intros a d; [ reflexivity |].
  change (last (a :: b :: l) d) with (last (b :: l) d).
  now rewrite (IH b d), (IH b a).
Qed.

Lemma readMetaRow_title (meta : Meta.t) (row : metaRow) :
  Meta.formTitle (readMetaRow meta row)
  = if setsTitle row then JS.toString (mValue row)
    else Meta.formTitle meta.
Proof.
  unfold readMetaRow, setsTitle.
  destruct (metaRowSet row); [| reflexivity ]. cbn [andb].
  destruct (JS.strictEq (mKey row) (VString "FormTitle")); [ reflexivity |].
  destruct (JS.strictEq (mKey row) (VString "FormDescription"));
    [ reflexivity |].
  destruct (JS.strictEq (mKey row) (VString "Version")); reflexivity.
Qed.

(** X8.  The title read is the value of the last row with key
    [FormTitle] whose value is neither absent nor empty, and the default
    title when there is no such row: a blank value never overrides. *)
Theorem readMeta_title_last_set (rows : list metaRow) :
  exists meta,
    readMeta (Some rows) = Normal meta
    /\ Meta.formTitle meta
       = last (map (fun row => JS.toString (mValue row))
                   (filter setsTitle rows))
              "HBMP Survey Form".
Proof.
  eexists. split; [ reflexivity |].
  change "HBMP Survey Form" with (Meta.formTitle defaultMeta).
  generalize defaultMeta.
  induction rows as [| row rows IH]; intros meta; [ reflexivity |].
  cbn [fold_left filter]. rewrite IH, readMetaRow_title.
  destruct (setsTitle row); [| reflexivity ].
  cbn [map]. now rewrite last_cons_default.
Qed.

Lemma writeMetaRow_key (formData : FormData.t) (row : metaRow) :
  mKey (writeMetaRow formData row) = mKey row.
Proof.
  unfold writeMetaRow.
  repeat match goal with
         | |- context [if ?c then _ else _] => destruct c; try reflexivity
         end.
Qed.

Lemma writeMetaRow_absorbs (first later : FormData.t) (row : metaRow) :
  writeMetaRow later (writeMetaRow first row) = writeMetaRow later row.
Proof.
  unfold writeMetaRow at 2.
  repeat match goal with
         | |- context [if JS.strictEq (mKey row) ?k then _ else _] =>
             destruct (JS.strictEq (mKey row) k) eqn:?
         end;
    try reflexivity;
    unfold writeMetaRow; cbn [mKey];
    repeat match goal with
           | H : JS.strictEq _ _ = _ |- _ => rewrite H
           end;
    reflexivity.
Qed.

(** X9.  [writeMeta] changes no key and no row count, and a later write
    overrides an earlier one entirely: writing [later] after [first] leaves
    the sheet as writing [later] alone does. *)
Theorem writeMeta_last_write_wins (first later : FormData.t)
  (rows : list metaRow) :
  exists written,
    writeMeta first (Some rows) = Normal written
    /\ map mKey written = map mKey rows
    /\ writeMeta later (Some written) = writeMeta later (Some rows).
Proof.
  eexists. split; [ reflexivity |]. split.
  - rewrite map_map. apply map_ext, writeMetaRow_key.
  - cbn [writeMeta]. f_equal. rewrite map_map.
    apply map_ext, writeMetaRow_absorbs.
Qed.

Lemma readMetaRow_written (formData : FormData.t) (meta meta' : Meta.t)
  (row : metaRow) :
  Meta.formTitle meta = Meta.formTitle meta' ->
  Meta.formDescription meta = Meta.formDescription meta' ->
  Meta.formTitle (readMetaRow meta row)
  = Meta.formTitle (readMetaRow meta' (writeMetaRow formData row))
  /\ Meta.formDescription (readMetaRow meta row)
     = Meta.formDescription (readMetaRow meta' (writeMetaRow formData row)).
Proof.
  intros Ht Hd. unfold writeMetaRow.
  repeat match goal with
         | |- context [if JS.strictEq (mKey row) ?k then _ else _] =>
             let E := fresh "E" in
             destruct (JS.strictEq (mKey row) k) eqn:E;
             [ apply strictEq_true in E;
               unfold readMetaRow, metaRowSet; cbn [mKey mValue];
               rewrite E;
               repeat match goal with
                      | |- context [JS.strictEq (VString ?a) (VString ?b)] =>
                          lazymatch b with
                          | EmptyString => fail
                          | _ =>
                              let v := eval vm_compute in
                                         (JS.strictEq (VString a) (VString b))
                              in change (JS.strictEq (VString a) (VString b))
                                   with v
                          end
                      end;
               cbv iota;
               repeat match goal with
                      | |- context [if ?c then _ else _] =>
                          destruct c; cbn; auto
                      end
             |]
         end.
  unfold readMetaRow. destruct (metaRowSet row); [| auto ].
  repeat match goal with
         | |- context [if ?c then _ else _] => destruct c; cbn; auto
         end.
Qed.

Lemma readMeta_fold_written (formData : FormData.t) (rows : list metaRow)
  (meta meta' : Meta.t) :
  Meta.formTitle meta = Meta.formTitle meta' ->
  Meta.formDescription meta = Meta.formDescription meta' ->
  Meta.formTitle (fold_left readMetaRow rows meta)
  = Meta.formTitle
      (fold_left readMetaRow (map (writeMetaRow formData) rows) meta')
  /\ Meta.formDescription (fold_left readMetaRow rows meta)
     = Meta.formDescription
         (fold_left readMetaRow (map (writeMetaRow formData) rows) meta').
Proof.
  revert meta meta'. induction rows as [| row rows IH]; intros meta meta' Ht Hd;
    [ now split |].
  cbn [map fold_left].
  destruct (readMetaRow_written formData meta meta' row Ht Hd) as [Ht' Hd'].
  now apply IH.
Qed.

Lemma readMetaRow_version (meta : Meta.t) (row : metaRow) :
  Meta.version (readMetaRow meta row)
  = if metaRowSet row && JS.strictEq (mKey row) (VString "Version")
    then JS.toString (mValue row) else Meta.version meta.
Proof.
  unfold readMetaRow. destruct (metaRowSet row); [| reflexivity ].
  cbn [andb].
  destruct (JS.strictEq (mKey row) (VString "FormTitle")) eqn:E1.
  - apply strictEq_true in E1. now rewrite E1.
  - destruct (JS.strictEq (mKey row) (VString "FormDescription")) eqn:E2.
    + apply strictEq_true in E2. now rewrite E2.
    + destruct (JS.strictEq (mKey row) (VString "Version")); reflexivity.
Qed.

Lemma writeMetaRow_version (formData : FormData.t) (row : metaRow) :
  (mKey row = VString "Version" ->
   writeMetaRow formData row
   = {| mKey := VString "Version";
        mValue := VString (FormData.version formData) |})
  /\ (mKey row <> VString "Version" ->
      mKey (writeMetaRow formData row) <> VString "Version").
Proof.
  split.
  - intros E. unfold writeMetaRow. now rewrite E.
  - intros N. now rewrite writeMetaRow_key.
Qed.

Lemma readMeta_fold_version (formData : FormData.t) (rows : list metaRow)
  (meta : Meta.t) :
  let after :=
    fold_left readMetaRow (map (writeMetaRow formData) rows) meta in
  (FormData.version formData <> EmptyString ->
   (exists row, In row rows /\ mKey row = VString "Version") ->
   Meta.version after = FormData.version formData)
  /\ ((forall row, In row rows -> mKey row <> VString "Version") ->
      Meta.version after = Meta.version meta).
Proof.
  induction rows as [| row rows IH] using rev_ind; cbv zeta.
  - split; [ intros _ [row [[] _]] | reflexivity ].
  - rewrite map_app, fold_left_app. cbn [map fold_left].
    rewrite readMetaRow_version.
    destruct (writeMetaRow_version formData row) as [Hv Hn].
    destruct IH as [IH1 IH2].
    destruct (JS.value_eq_dec (mKey row) (VString "Version")) as [E | N].
    + rewrite (Hv E). split.
      * intros Hne _. unfold metaRowSet. cbn [mKey mValue JS.toString].
        destruct (JS.strictEq _ (VString EmptyString)) eqn:Es;
          [ apply strictEq_true in Es; congruence | reflexivity ].
      * intros Hall. exfalso. apply (Hall row); [| exact E ].
        apply in_or_app. right. now left.
    + specialize (Hn N). apply strictEq_false in Hn. rewrite Hn, andb_false_r.
      split.
      * intros Hne [r [Hin Hr]]. apply IH1; [ exact Hne |].
        apply in_app_or in Hin. destruct Hin as [Hin | [<- | []]];
          [ now exists r | contradiction ].
      * intros Hall. apply IH2. intros r Hr. apply Hall.
        apply in_or_app. now left.
Qed.

(** X10.  Reading the sheet after [writeMeta] gives the title and the
    description it gave before; the version it gives is the version written
    when that is not empty and the sheet has a row with key [Version], and
    the default ['1'] when the sheet has no such row. *)
Theorem writeMeta_then_readMeta (formData : FormData.t)
  (rows : list metaRow) :
  exists written before after,
    writeMeta formData (Some rows) = Normal written
    /\ readMeta (Some rows) = Normal before
    /\ readMeta (Some written) = Normal after
    /\ Meta.formTitle after = Meta.formTitle before
    /\ Meta.formDescription after = Meta.formDescription before
    /\ (FormData.version formData <> EmptyString ->
        (exists row, In row rows /\ mKey row = VString "Version") ->
        Meta.version after = FormData.version formData)
    /\ ((forall row, In row rows -> mKey row <> VString "Version") ->
        Meta.version after = "1").
Proof.
  eexists _, _, _. split; [ reflexivity |].
  split; [ reflexivity |]. split; [ reflexivity |].
  destruct (readMeta_fold_written formData rows defaultMeta defaultMeta
              eq_refl eq_refl) as [Ht Hd].
  destruct (readMeta_fold_version formData rows defaultMeta) as [Hv Hn].
  repeat split; auto.
Qed.

(** ** The reader of the menu command *)

Lemma filter_permutation {A : Type} (p : A -> bool) (l l' : list A) :
  Permutation l l' -> Permutation (filter p l) (filter p l').
Proof.
  induction 1 as [| x l l' _ IH | x y l | l l' l'' _ IH1 _ IH2].
  - constructor.
  - cbn [filter]. destruct (p x); [ now constructor | exact IH ].
  - cbn [filter]. destruct (p x), (p y);
      try apply Permutation_refl. apply perm_swap.
  - now apply Permutation_trans with (filter p l').
Qed.

Lemma filter_strongly_sorted {A : Type} (R : A -> A -> Prop)
  (p : A -> bool) (l : list A) :
  StronglySorted R l -> StronglySorted R (filter p l).
Proof.
  induction 1 as [| x l _ IH Hx]; [ constructor |].
  cbn [filter]. destruct (p x); [| exact IH ].
  constructor; [ exact IH |].
  rewrite Forall_forall in *. intros y Hy. apply Hx.
  now apply filter_In in Hy.
Qed.

Lemma filter_swap {A : Type} (p q : A -> bool) (l : list A) :
  filter p (filter q l) = filter q (filter p l).
Proof.
  induction l as [| x l IH]; [ reflexivity |].
  cbn [filter]. destruct (p x) eqn:P, (q x) eqn:Q; cbn [filter];
    rewrite ?P, ?Q, IH; reflexivity.
Qed.

Lemma readQuestionRow_valid (rows : list questionRow) :
  filter (fun q => negb (isInvalidType (Question.type q)))
         (flat_map readQuestionRow rows)
  = map makeQuestion (filter rowAccepted rows).
Proof.
  induction rows as [| row rows IH]; [ reflexivity |].
  cbn [flat_map filter]. rewrite filter_app, IH.
  unfold readQuestionRow, rowAccepted.
  destruct (isBlank (qQuestionText row)); [ reflexivity |]. cbv zeta.
  rewrite makeQuestion_options_check.
  destruct (isChoiceType (rowType row) && _); [ reflexivity |].
  cbn [filter negb andb].
  change (Question.type (makeQuestion row)) with (rowType row).
  destruct (isInvalidType (rowType row)); reflexivity.
Qed.

Lemma readQuestionRow_text (rows : list questionRow) :
  Forall textSectionRow rows ->
  Forall textSection (flat_map readQuestionRow rows).
Proof.
  induction 1 as [| row rows Hrow _ IH]; [ constructor |].
  cbn [flat_map]. apply Forall_app. split; [| exact IH ].
  unfold readQuestionRow. destruct (isBlank _); [ constructor |].
  cbv zeta. destruct (_ && _); repeat constructor. exact Hrow.
Qed.

Lemma readQuestionRow_sections (rows : list questionRow) :
  incl (map Question.section (flat_map readQuestionRow rows))
       (map rowSection rows).
Proof.
  intros s Hs. apply in_map_iff in Hs. destruct Hs as [q [<- Hq]].
  apply in_flat_map in Hq. destruct Hq as [row [Hrow Hq]].
  apply in_map_iff. exists row. split; [| exact Hrow ].
  unfold readQuestionRow in Hq.
  destruct (isBlank _); [ contradiction |]. cbv zeta in Hq.
  destruct (_ && _); [ contradiction |].
  destruct Hq as [<- | []]. reflexivity.
Qed.

Lemma filter_sections (p : Question.t -> bool) (qs : list Question.t) :
  incl (map Question.section (filter p qs)) (map Question.section qs).
Proof.
  intros s Hs. apply in_map_iff in Hs. destruct Hs as [q [<- Hq]].
  apply filter_In in Hq. now apply in_map.
Qed.

Section MenuReader.

Variable localeCompare : string -> string -> Z.

Hypothesis localeCompare_antisym :
  forall a b, (localeCompare a b < 0 <-> 0 < localeCompare b a)%Z.
Hypothesis localeCompare_trans :
  forall a b c, (localeCompare a b < 0 -> localeCompare b c < 0 ->
                 localeCompare a c < 0)%Z.

(** X11.  The two readers agree up to the type check: for rows whose
    sections are strings that the collation tells apart (no two different
    section cells of the sheet compare equal), the questions of the
    validating reader are the questions of the menu reader without those of
    an invalid type, in the same order. *)
Theorem readers_differ_by_type_check (rows : list questionRow) :
  Forall textSectionRow rows ->
  separates localeCompare (map rowSection rows) ->
  exists menu qs stats,
    readQuestions localeCompare (Some rows) = Normal menu
    /\ readQuestionsWithValidation localeCompare (Some rows)
       = Normal (qs, stats)
    /\ qs = filter (fun q => negb (isInvalidType (Question.type q))) menu.
Proof.
  intros Htext Hrows.
  pose proof (readQuestionRow_text rows Htext) as Hmenu.
  pose proof (separates_incl localeCompare _ _
                (readQuestionRow_sections rows) Hrows) as Hsep.
  destruct (sortQuestions_completes localeCompare _ Hmenu) as [menu Hsort].
  exists menu. destruct rows as [| row rows'].
  - cbn in Hsort. injection Hsort as <-.
    eexists _, _. repeat split.
  - set (rows := row :: rows') in *.
    destruct (readQuestionsWithValidation_returns localeCompare rows)
      as [qs [Hqs Hread]];
      [ discriminate | now apply scanQuestionRows_text |].
    eexists qs, _. split; [ exact Hsort |]. split; [ exact Hread |].
    destruct (scanQuestionRows_closed rows) as [Q _].
    rewrite Q, <- readQuestionRow_valid in Hqs.
    set (valid := fun q => negb (isInvalidType (Question.type q))) in *.
    symmetry.
    apply (sortQuestions_unique localeCompare
             localeCompare_antisym localeCompare_trans
             (filter valid (flat_map readQuestionRow rows)) qs
             (filter valid menu)).
    + rewrite Forall_forall in *. intros q Hq. apply Hmenu.
      now apply filter_In in Hq.
    + apply (separates_incl localeCompare _ _ (filter_sections valid _)).
      exact Hsep.
    + exact Hqs.
    + apply filter_permutation, (sort_perm _ _ _ Hsort).
    + apply filter_strongly_sorted.
      apply (sortQuestions_sorted localeCompare
               localeCompare_antisym localeCompare_trans _ _
               Hmenu Hsep Hsort).
    + intros q. rewrite (filter_swap (sameKey q) valid menu),
        (filter_swap (sameKey q) valid (flat_map readQuestionRow rows)).
      f_equal.
      apply (sort_stable (compareQuestions localeCompare) (sameKey q));
        [| exact Hsort ].
      intros x y v. apply sameKey_ties.
Qed.

End MenuReader.

(** ** The menu command *)

Lemma generateNewForm_steps (localeCompare : string -> string -> Z)
  (h : host) (wb : workbook) :
  exists metaRows fields,
    formMetaSheet (ensureWorkbook wb) = Some metaRows
    /\ readRespondentDetails
         (respondentDetailsSheet (dataSheets (ensureWorkbook wb)))
       = Normal fields
    /\ generateNewForm localeCompare h wb
       = match readQuestions localeCompare
                 (questionsSheet (dataSheets (ensureWorkbook wb))) with
         | Throw e => AlertFailure ("Failed to generate form: " ++ e)
         | Normal qs =>
             if (List.length qs =? 0)%nat then AlertNoQuestions
             else
               let formData :=
                 buildFormData h (fold_left readMetaRow metaRows defaultMeta)
               in
               AlertSuccess (buildForm fields qs) formData
                            (map (writeMetaRow formData) metaRows)
         end.
Proof.
  destruct (readRespondentDetails_returns
              (respondentDetailsSheet (dataSheets (ensureWorkbook wb))))
    as [fields Hfields].
  assert (Hmeta : exists metaRows,
             formMetaSheet (ensureWorkbook wb) = Some metaRows)
    by (cbn; destruct (formMetaSheet wb); eauto).
  destruct Hmeta as [metaRows Hmeta].
  exists metaRows, fields. split; [ exact Hmeta |].
  split; [ exact Hfields |].
  unfold generateNewForm. rewrite Hmeta, Hfields.
  cbn [readMeta bind].
  destruct (readQuestions localeCompare _) as [qs | e]; cbn [bind];
    [| reflexivity ].
  destruct (List.length qs =? 0)%nat; reflexivity.
Qed.

Lemma newVersion_nonempty (version : string) :
  newVersion version <> EmptyString.
Proof.
  unfold newVersion. destruct (parseInt version);
    [ apply toString_number_nonempty | discriminate ].
Qed.

(** X12.  A successful run of the menu command increments the version:
    when the version read is an integer [n] below 2^53 in absolute value,
    the version of the form data is [n + 1], and reading the sheet written
    gives [n + 1] as well provided the sheet has a row with key [Version];
    reading the sheet written gives the same title and description as
    before. *)
Theorem menu_increments_version (localeCompare : string -> string -> Z)
  (h : host) (wb : workbook) (form : list instruction)
  (formData : FormData.t) (written : list metaRow) :
  generateNewForm localeCompare h wb = AlertSuccess form formData written ->
  exists metaRows before after,
    formMetaSheet (ensureWorkbook wb) = Some metaRows
    /\ readMeta (Some metaRows) = Normal before
    /\ readMeta (Some written) = Normal after
    /\ (forall n,
          (Z.abs n < 2 ^ 53)%Z ->
          Meta.version before = JS.toString (VNumber n) ->
          FormData.version formData = JS.toString (VNumber (n + 1))
          /\ ((exists row, In row metaRows /\ mKey row = VString "Version")
              -> Meta.version after = JS.toString (VNumber (n + 1))))
    /\ Meta.formTitle after = Meta.formTitle before
    /\ Meta.formDescription after = Meta.formDescription before.
Proof.
  intros Hrun.
  destruct (generateNewForm_steps localeCompare h wb)
    as (metaRows & fields & Hmeta & _ & Hsteps).
  rewrite Hsteps in Hrun.
  destruct (readQuestions localeCompare _) as [qs | e]; [| discriminate ].
  destruct (List.length qs =? 0)%nat; [ discriminate |].
  cbv zeta in Hrun. injection Hrun as _ <- <-.
  exists metaRows. eexists _, _. split; [ exact Hmeta |].
  split; [ reflexivity |]. split; [ reflexivity |].
  set (before := fold_left readMetaRow metaRows defaultMeta).
  set (formData := buildFormData h before).
  destruct (readMeta_fold_written formData metaRows defaultMeta defaultMeta
              eq_refl eq_refl) as [Ht Hd].
  destruct (readMeta_fold_version formData metaRows defaultMeta) as [Hv _].
  split; [| split ].
  - intros n Hsafe Hn.
    assert (Hnew : FormData.version formData
                   = JS.toString (VNumber (n + 1))).
    { cbn [formData buildFormData FormData.version]. unfold newVersion.
      rewrite Hn, parseInt_toString.
      rewrite (toDouble_safe n), (toDouble_safe (n + 1)) by lia.
      reflexivity. }
    split; [ exact Hnew |].
    intros Hrow. rewrite <- Hnew. apply Hv; [| exact Hrow ].
    apply newVersion_nonempty.
  - symmetry. exact Ht.
  - symmetry. exact Hd.
Qed.

(** X13.  The menu command refuses to build exactly when its reader keeps
    no row: for rows whose sections are strings it ends with the alert [No
    questions found] if and only if every row is without question text or
    is a choice question without options. *)
Theorem menu_needs_a_question (localeCompare : string -> string -> Z)
  (h : host) (wb : workbook) (rows : list questionRow) :
  questionsSheet (dataSheets wb) = Some rows ->
  Forall textSectionRow rows ->
  generateNewForm localeCompare h wb = AlertNoQuestions
  <-> Forall (fun row => readQuestionRow row = []) rows.
Proof.
  intros Hsheet Htext.
  destruct (generateNewForm_steps localeCompare h wb)
    as (metaRows & fields & _ & _ & ->).
  assert (Hq : questionsSheet (dataSheets (ensureWorkbook wb)) = Some rows)
    by (cbn; now rewrite Hsheet).
  rewrite Hq. cbn [readQuestions].
  destruct (sortQuestions_completes localeCompare _
              (readQuestionRow_text rows Htext)) as [qs Hsort].
  rewrite Hsort.
  pose proof (Permutation_length (sort_perm _ _ _ Hsort)) as Hlen.
  assert (Hnil : flat_map readQuestionRow rows = []
                 <-> Forall (fun row => readQuestionRow row = []) rows).
  { clear. induction rows as [| row rows IH]; [ now split |].
    cbn [flat_map]. split.
    - intros H. apply app_eq_nil in H. destruct H as [H1 H2].
      constructor; [ exact H1 | now apply IH ].
    - intros H. inversion H as [| ? ? H1 H2]; subst.
      rewrite H1. now apply IH. }
  rewrite <- Hnil.
  destruct qs as [| q qs']; cbn [List.length Nat.eqb].
  - split; [ intros _ | reflexivity ].
    now apply length_zero_iff_nil.
  - split; [ discriminate |]. intros E. rewrite E in Hlen. discriminate.
Qed.

(** ** doPost *)

(** X14.  A response that carries statistics was produced for a request
    that knew the secret: the script property is set and not empty, the
    body parsed, its [secret] (or, when that is absent or falsy, its
    [X-HBMP-SECRET]) is that very string, and the action is
    [generateForm]; the response is then the one of [handleGenerateForm]. *)
Theorem doPost_requires_secret (localeCompare : string -> string -> Z)
  (hbmpSecret : option string) (body : postBody) (ss : spreadsheet)
  (stats : validationStats) :
  responseStats (doPost localeCompare hbmpSecret body ss) = Some stats ->
  exists s data,
    hbmpSecret = Some s
    /\ s <> EmptyString
    /\ body = RequestData data
    /\ (rSecret data = VString s
        \/ (JS.truthy (rSecret data) = false
            /\ rXHbmpSecret data = VString s))
    /\ rAction data = VString "generateForm"
    /\ doPost localeCompare hbmpSecret body ss
       = handleGenerateForm localeCompare (requestDryRun data) ss.
Proof.
  unfold doPost.
  destruct body as [| | data]; [ discriminate | |].
  { destruct (negb _); discriminate. }
  destruct hbmpSecret as [s |]; [| discriminate ].
  cbn [JS.truthy]. destruct (String.eqb_spec s EmptyString) as [E | N];
    [ discriminate |].
  cbn [negb].
  destruct (JS.truthy (JS.or (rSecret data) (rXHbmpSecret data))) eqn:Ht;
    cbn [negb orb]; [| discriminate ].
  destruct (JS.strictEq (JS.or (rSecret data) (rXHbmpSecret data))
                        (VString s)) eqn:Es;
    cbn [negb]; [| discriminate ].
  apply strictEq_true in Es.
  destruct (JS.strictEq (rAction data) (VString "generateForm")) eqn:Ea;
    [| discriminate ].
  apply strictEq_true in Ea. intros _.
  exists s, data. repeat split; try assumption.
  unfold JS.or in Es. destruct (JS.truthy (rSecret data));
    [ now left | right; now split ].
Qed.

(** X15.  A request flagged as a dry run never creates a form: when
    [doPost] answers with a created form, the [dryRun] field is neither the
    boolean [true] nor the string ['true']. *)
Theorem doPost_dry_run_creates_nothing
  (localeCompare : string -> string -> Z) (hbmpSecret : option string)
  (data : requestData) (ss : spreadsheet) (form : list instruction)
  (stats : validationStats) :
  doPost localeCompare hbmpSecret (RequestData data) ss
  = FormCreated form stats ->
  rDryRun data <> VBoolean true /\ rDryRun data <> VString "true".
Proof.
  intros H.
  destruct (doPost_requires_secret localeCompare hbmpSecret
              (RequestData data) ss stats)
    as (s & data' & _ & _ & [= <-] & _ & _ & Hrun);
    [ now rewrite H |].
  rewrite Hrun in H.
  destruct (handleGenerateForm_created _ _ _ _ _ H) as [Hdry _].
  unfold requestDryRun in Hdry. apply orb_false_iff in Hdry.
  destruct Hdry as [H1 H2]. now apply strictEq_false in H1, H2.
Qed.

(** ** The respondent fields *)

Lemma readRespondentRow_wellFormed (row : respondentRow) :
  Forall wellFormedField (readRespondentRow row).
Proof.
  unfold readRespondentRow.
  destruct (isBlank (dFieldName row)) eqn:Hb; [ constructor |].
  assert (Hname : JS.trim (JS.toString (dFieldName row)) <> EmptyString).
  { unfold isBlank in Hb. apply orb_false_iff in Hb.
    destruct Hb as [_ Hb]. now apply String.eqb_neq. }
  cbv zeta. destruct (String.eqb_spec (Field.type (makeField row)) "DROPDOWN")
    as [E | N].
  - destruct (List.length _ =? 0)%nat eqn:Hl; [ constructor |].
    repeat constructor; cbn [Field.fieldName Field.type Field.options].
    + exact Hname.
    + intros _ Ho. rewrite Ho in Hl. discriminate.
    + intros Hd. contradiction.
    + apply collectOptions_nonempty.
  - repeat constructor; cbn [makeField Field.fieldName Field.options].
    + exact Hname.
    + intros Hd. contradiction.
Qed.

(** X16.  Every respondent field the reader returns is well formed: its
    name is not empty, it has choices exactly when its type is DROPDOWN,
    and no choice is the empty string. *)
Theorem respondent_fields_well_formed
  (sheet : option (list respondentRow)) :
  exists fields,
    readRespondentDetails sheet = Normal fields
    /\ Forall wellFormedField fields.
Proof.
  destruct (readRespondentDetails_returns sheet) as [fields H].
  exists fields. split; [ exact H |].
  destruct sheet as [rows |]; [| injection H as <-; constructor ].
  destruct (readRespondentDetails_sorted rows fields H) as [Hp _].
  apply (Permutation_Forall Hp). clear.
  induction rows as [| row rows IH]; [ constructor |].
  cbn [flat_map]. apply Forall_app. split;
    [ apply readRespondentRow_wellFormed | exact IH ].
Qed.

(** X17.  Respondent fields with equal [order] keep the order of their
    rows in the sheet. *)
Theorem respondent_sort_stable (rows : list respondentRow) :
  exists fields,
    readRespondentDetails (Some rows) = Normal fields
    /\ forall f,
         filter (sameOrder f) fields
         = filter (sameOrder f) (flat_map readRespondentRow rows).
Proof.
  destruct (readRespondentDetails_returns (Some rows)) as [fields H].
  exists fields. split; [ exact H |]. intros f.
  apply (sort_stable compareFields (sameOrder f)); [| exact H ].
  unfold sameOrder, compareFields. intros a b v Ha Hb [= <-].
  apply Qeq_bool_iff in Ha, Hb. apply negative_false. lra.
Qed.

(** ** The Required cell *)

Lemma toUpperCase_number (n : Z) :
  JS.toUpperCase (JS.toString (VNumber n)) <> "TRUE".
Proof.
  cbn [JS.toString]. destruct n as [| p | p]; cbn [Z.to_int];
    unfold NilZero.string_of_int, NilZero.string_of_uint;
    try discriminate;
    destruct (Pos.to_uint p); discriminate.
Qed.

(** X18.  A [Required] cell makes the question required exactly when it is
    the boolean [true] or a string that reads TRUE in upper case; a number,
    an empty or an absent cell never does. *)
Theorem parseRequired_true (cell : value) :
  parseRequired cell = true
  <-> cell = VBoolean true
      \/ exists s, cell = VString s /\ JS.toUpperCase s = "TRUE".
Proof.
  unfold parseRequired, JS.or. split.
  - destruct cell as [| s | n | [|]]; cbn [JS.truthy].
    + discriminate.
    + destruct (String.eqb s EmptyString); cbn [negb]; [ discriminate |].
      intros H. apply String.eqb_eq in H. right. now exists s.
    + destruct (Z.eqb n 0); cbn [negb]; [ discriminate |].
      intros H. apply String.eqb_eq in H.
      now apply toUpperCase_number in H.
    + now left.
    + discriminate.
  - intros [-> | [s [-> Hs]]]; [ reflexivity |].
    cbn [JS.truthy].
    destruct (String.eqb_spec s EmptyString) as [E | N]; cbn [negb].
    + rewrite E in Hs. discriminate.
    + cbn [JS.toString]. now apply String.eqb_eq.
Qed.

(** ** The section page breaks of a sorted list *)

Section SectionBreaks.

Variable localeCompare : string -> string -> Z.

Hypothesis localeCompare_antisym :
  forall a b, (localeCompare a b < 0 <-> 0 < localeCompare b a)%Z.
Hypothesis localeCompare_trans :
  forall a b c, (localeCompare a b < 0 -> localeCompare b c < 0 ->
                 localeCompare a c < 0)%Z.

Lemma sections_sorted (qs : list Question.t) :
  StronglySorted (questionOrder localeCompare) qs ->
  StronglySorted (sectionUpTo localeCompare)
    (filter nonBlankSection (map Question.section qs)).
Proof.
  induction 1 as [| q rest _ IH Hq]; [ constructor |].
  cbn [map filter].
  destruct (nonBlankSection (Question.section q)) eqn:Hn; [| exact IH ].
  constructor; [ exact IH |].
  apply Forall_forall. intros t Ht.
  apply filter_In in Ht. destruct Ht as [Ht Hblank].
  apply in_map_iff in Ht. destruct Ht as [b [<- Hb]].
  rewrite Forall_forall in Hq. specialize (Hq b Hb).
  unfold questionOrder in Hq. unfold sectionUpTo, sectionBefore.
  destruct (JS.value_eq_dec (Question.section q) (Question.section b))
    as [E | N]; [ now left |].
  destruct Hq as [_ [Eb | Hlt]]; [| now right ].
  rewrite Eb in Hblank. discriminate.
Qed.

Lemma sectionRuns_sorted (names : list value) (current : option value) :
  StronglySorted (sectionUpTo localeCompare) names ->
  (forall c, current = Some c ->
             Forall (sectionUpTo localeCompare c) names) ->
  StronglySorted (sectionBefore localeCompare) (sectionRuns current names)
  /\ (forall c, current = Some c ->
                Forall (sectionBefore localeCompare c)
                       (sectionRuns current names))
  /\ (forall s, In s (sectionRuns current names) -> In s names).
Proof.
  intros Hs. revert current.
  induction Hs as [| s rest _ IH Hrest]; intros current Hcur.
  - cbn. repeat split; try constructor. intros s [].
  - cbn [sectionRuns].
    destruct (IH (Some s)) as [S1 [B1 I1]];
      [ intros c [= <-]; exact Hrest |].
    specialize (B1 s eq_refl).
    assert (Hnew : StronglySorted (sectionBefore localeCompare)
                     (s :: sectionRuns (Some s) rest))
      by (now constructor).
    destruct current as [c |].
    + specialize (Hcur c eq_refl).
      inversion Hcur as [| ? ? Hcs Hcrest]; subst.
      destruct (JS.strictEq s c) eqn:E.
      * apply strictEq_true in E. subst c.
        destruct (IH (Some s)) as [S2 [B2 I2]];
          [ intros c [= <-]; exact Hrest |].
        split; [ exact S2 |]. split; [ exact B2 |].
        intros t Ht. right. now apply I2.
      * apply strictEq_false in E.
        assert (Hlt : (sectionBefore localeCompare) c s)
          by (destruct Hcs as [<- | Hlt]; [ contradiction | exact Hlt ]).
        split; [ exact Hnew |]. split.
        -- intros c' [= <-]. constructor; [ exact Hlt |].
           rewrite Forall_forall in *. intros t Ht.
           apply (localeCompare_trans _ _ _ Hlt (B1 t Ht)).
        -- intros t [<- | Ht]; [ now left | right; now apply I1 ].
    + split; [ exact Hnew |]. split; [ discriminate |].
      intros t [<- | Ht]; [ now left | right; now apply I1 ].
Qed.

Lemma before_strict_nodup (names : list value) :
  StronglySorted (sectionBefore localeCompare) names -> NoDup names.
Proof.
  induction 1 as [| s rest _ IH Hs]; constructor; [| exact IH ].
  intros Hin. rewrite Forall_forall in Hs. specialize (Hs s Hin).
  unfold sectionBefore in Hs.
  pose proof (proj1 (localeCompare_antisym _ _) Hs). lia.
Qed.

(** X19.  In the form built from the questions the validating reader
    returns, every section has one page break: for rows whose sections are
    strings that the collation tells apart (no two different section cells
    of the sheet compare equal) the titles of the section page breaks are
    pairwise different, and there are at most [sectionsCount] of them. *)
Theorem section_breaks_distinct (rows : list questionRow) :
  Forall textSectionRow rows ->
  separates localeCompare (map rowSection rows) ->
  exists qs stats,
    readQuestionsWithValidation localeCompare (Some rows)
    = Normal (qs, stats)
    /\ NoDup (pageBreakTitles (addQuestions None qs))
    /\ List.length (pageBreakTitles (addQuestions None qs))
       <= sectionsCount stats.
Proof.
  intros Htext Hrows. destruct rows as [| row rows'].
  - eexists _, _. split; [ reflexivity |]. split; [ constructor | cbn; lia ].
  - set (rows := row :: rows') in *.
    pose proof (scanQuestionRows_text rows Htext) as Hqtext.
    assert (Hsep : separates localeCompare
                     (map Question.section
                          (questions (scanQuestionRows rows initialScan)))).
    { apply (separates_incl localeCompare _ (map rowSection rows));
        [| exact Hrows ].
      destruct (scanQuestionRows_closed rows) as [Q _]. rewrite Q.
      intros s Hs. apply in_map_iff in Hs. destruct Hs as [q [<- Hq]].
      apply in_map_iff in Hq. destruct Hq as [r [<- Hr]].
      apply filter_In in Hr. apply in_map_iff. exists r.
      split; [ reflexivity | apply Hr ]. }
    destruct (readQuestionsWithValidation_returns localeCompare rows)
      as [qs [Hsort Hread]]; [ discriminate | exact Hqtext |].
    eexists qs, _. split; [ exact Hread |].
    cbn [sectionsCount]. rewrite addQuestions_titles.
    pose proof (sortQuestions_sorted localeCompare
                  localeCompare_antisym localeCompare_trans _ _
                  Hqtext Hsep Hsort) as Hsorted.
    destruct (sectionRuns_sorted _ None (sections_sorted qs Hsorted))
      as [Hruns [_ Hin]]; [ discriminate |].
    pose proof (before_strict_nodup _ Hruns) as Hnodup.
    split; [ exact Hnodup |].
    rewrite scanQuestionRows_sectionsCount.
    apply NoDup_incl_length; [ exact Hnodup |].
    intros s Hs. apply Hin in Hs. unfold sectionsOfRows.
    apply nodup_In. unfold trackedSections.
    apply filter_In in Hs. destruct Hs as [Hs Hblank].
    apply in_map_iff in Hs. destruct Hs as [q [<- Hq]].
    apply (Permutation_in _ (Permutation_sym (sort_perm _ _ _ Hsort)))
      in Hq.
    destruct (scanQuestionRows_closed rows) as [Q _]. rewrite Q in Hq.
    apply in_map_iff in Hq. destruct Hq as [r [<- Hr]].
    apply filter_In in Hr. destruct Hr as [Hr Hacc].
    destruct (rowAccepted_checks r Hacc) as [Hb _].
    apply filter_In. split; [| exact Hblank ].
    apply in_map_iff. exists r. split; [ reflexivity |].
    apply filter_In. split; [ exact Hr | now rewrite Hb ].
Qed.

End SectionBreaks.

(** ** A missing RespondentDetails sheet *)


(** ** The further properties at sample sheets *)

Lemma sampleRows_text : Forall textSectionRow sampleRows.
Proof. repeat constructor. Qed.

Lemma stats_account_for_rows_witness :
  exists qs stats,
    readQuestionsWithValidation codeUnitCompare (Some sampleRows)
    = Normal (qs, stats)
    /\ questionsCount stats + skippedCount stats = 5.
Proof.
  destruct (stats_account_for_rows codeUnitCompare sampleRows)
    as (qs & stats & Hread & _ & Hsum & _).
  - discriminate.
  - exact sampleRows_text.
  - exists qs, stats. split; [ exact Hread | exact Hsum ].
Defined.

Lemma accepted_questions_well_formed_witness :
  exists qs stats,
    readQuestionsWithValidation codeUnitCompare (Some sampleRows)
    = Normal (qs, stats)
    /\ Forall wellFormedQuestion qs.
Proof.
  eexists _, _. split; [ reflexivity |].
  exact (accepted_questions_well_formed codeUnitCompare (Some sampleRows)
           _ _ eq_refl).
Defined.

Lemma created_form_item_count_witness :
  exists form stats,
    compile codeUnitCompare sampleSheets = FormCreated form stats
    /\ List.length (filter isItem form) = 1 + questionsCount stats.
Proof.
  eexists _, _. split; [ reflexivity |].
  exact (created_form_item_count codeUnitCompare sampleSheets _ _ _
           eq_refl eq_refl).
Defined.

Lemma all_rows_skipped_still_creates_witness :
  exists form stats,
    compile codeUnitCompare (sheetsOf [] [languagesRow; howManyRow])
    = FormCreated form stats
    /\ questionsCount stats = 0 /\ skippedCount stats = 2.
Proof.
  destruct (all_rows_skipped_still_creates codeUnitCompare
              (sheetsOf [] [languagesRow; howManyRow])
              [languagesRow; howManyRow])
    as (fields & stats & _ & Hform & _ & Hq & Hs).
  - reflexivity.
  - discriminate.
  - repeat constructor.
  - exists (buildForm fields []), stats.
    split; [ exact Hform | split; [ exact Hq | exact Hs ] ].
Defined.

Lemma cleaned_sheet_same_form_witness :
  exists form stats stats',
    compile codeUnitCompare sampleSheets = FormCreated form stats
    /\ compile codeUnitCompare
         (sheetsOf [respondentRowOf "Name" "TEXT" 1]
                   (filter rowAccepted sampleRows))
       = FormCreated form stats'
    /\ skippedCount stats' = 0.
Proof.
  destruct (compile codeUnitCompare sampleSheets) as [| | form stats |]
    eqn:Hcompile; try discriminate Hcompile.
  destruct (cleaned_sheet_same_form codeUnitCompare sampleSheets
              sampleRows form stats)
    as (stats' & Hform & _ & Hs & _).
  - reflexivity.
  - discriminate.
  - exact Hcompile.
  - exists form, stats, stats'. split; [ reflexivity |].
    split; [ exact Hform | exact Hs ].
Defined.

Lemma readers_differ_by_type_check_witness :
  exists menu qs stats,
    readQuestions codeUnitCompare (Some sampleRows) = Normal menu
    /\ readQuestionsWithValidation codeUnitCompare (Some sampleRows)
       = Normal (qs, stats)
    /\ qs = filter (fun q => negb (isInvalidType (Question.type q))) menu.
Proof.
  exact (readers_differ_by_type_check codeUnitCompare
           codeUnitCompare_antisym codeUnitCompare_trans sampleRows
           sampleRows_text
           (codeUnitCompare_separates sampleRows sampleRows_text)).
Defined.

Lemma menu_increments_version_witness :
  exists form formData written,
    generateNewForm codeUnitCompare sampleHost sampleWorkbook
    = AlertSuccess form formData written
    /\ FormData.version formData = "8".
Proof.
  eexists _, _, _. split; [ reflexivity |].
  destruct (menu_increments_version codeUnitCompare sampleHost
              sampleWorkbook _ _ _ eq_refl)
    as (metaRows & before & after & Hmeta & Hbefore & _ & Hnum & _).
  injection Hmeta as <-. injection Hbefore as <-.
  exact (proj1 (Hnum 7%Z eq_refl eq_refl)).
Defined.

Lemma menu_needs_a_question_witness :
  generateNewForm codeUnitCompare sampleHost
    {| formMetaSheet := None; dataSheets := sheetsOf [] [languagesRow] |}
  = AlertNoQuestions.
Proof.
  apply (menu_needs_a_question codeUnitCompare sampleHost
           {| formMetaSheet := None;
              dataSheets := sheetsOf [] [languagesRow] |}
           [languagesRow]).
  - reflexivity.
  - repeat constructor.
  - repeat constructor.
Defined.

Lemma doPost_requires_secret_witness :
  doPost codeUnitCompare (Some "s3cret")
    (RequestData (sampleRequest (VBoolean true))) sampleSheets
  = handleGenerateForm codeUnitCompare true sampleSheets.
Proof.
  destruct (doPost_requires_secret codeUnitCompare (Some "s3cret")
              (RequestData (sampleRequest (VBoolean true))) sampleSheets
              _ eq_refl)
    as (s & data & _ & _ & Hbody & _ & _ & Hrun).
  injection Hbody as <-. exact Hrun.
Defined.

Lemma doPost_dry_run_creates_nothing_witness :
  VString "TRUE" <> VBoolean true /\ VString "TRUE" <> VString "true".
Proof.
  exact (doPost_dry_run_creates_nothing codeUnitCompare (Some "s3cret")
           (sampleRequest (VString "TRUE")) sampleSheets _ _ eq_refl).
Defined.

Lemma section_breaks_distinct_witness :
  exists qs stats,
    readQuestionsWithValidation codeUnitCompare (Some sampleRows)
    = Normal (qs, stats)
    /\ NoDup (pageBreakTitles (addQuestions None qs))
    /\ List.length (pageBreakTitles (addQuestions None qs))
       <= sectionsCount stats.
Proof.
  exact (section_breaks_distinct codeUnitCompare
           codeUnitCompare_antisym codeUnitCompare_trans sampleRows
           sampleRows_text
           (codeUnitCompare_separates sampleRows sampleRows_text)).
Defined.

